(** * Smart Leftovers: the recommendation core of smart_leftovers_app.py

    A shallow embedding of the ingredient normalizer, the vegetarian check,
    the recommendation function and the button handler, with the properties
    the specification states about them.

    Python strings are sequences of Unicode code points, so a [str] is a list
    of code points; the scikit-learn ranker and the pandas sort, whose code is
    not in the repository, enter as interfaces (see [Sklearn], [Pandas]).
    What the specification says on the ranker's scores is settled on a model
    of the vectorizer and of the cosine similarity that follows its sections
    4.2 and 4.3, over the real numbers (see [Tfidf]). *)

From Stdlib Require Import List NArith ZArith QArith Qabs Bool String Ascii Lia.
From Stdlib Require Import Permutation Sorted DecimalString.
From Stdlib Require Import Reals Lra.
Import ListNotations.

Close Scope Q_scope.
Local Open Scope N_scope.

(* ================================================================== *)
(** ** Python strings *)
(* ================================================================== *)

Definition codepoint := N.
Definition str := list codepoint.

Module Py.

(** A literal of the development: the code points of an ASCII string. *)
Fixpoint of_string (s : string) : str :=
  match s with
  | EmptyString => []
  | String a t => N_of_ascii a :: of_string t
  end.

(** [str.isspace] on one code point; the same set is what [\s] matches in a
    [str] pattern and what [str.strip()] removes. *)
Definition is_space (c : codepoint) : bool :=
  ((9 <=? c) && (c <=? 13)) || ((28 <=? c) && (c <=? 32))
  || (c =? 133) || (c =? 160) || (c =? 5760)
  || ((8192 <=? c) && (c <=? 8202))
  || (c =? 8232) || (c =? 8233) || (c =? 8239) || (c =? 8287) || (c =? 12288).

(** The class [a-z], and the ASCII capitals. *)
Definition is_az (c : codepoint) : bool := (97 <=? c) && (c <=? 122).

Definition is_AZ (c : codepoint) : bool := (65 <=? c) && (c <=? 90).

(** [str.lower()], one code point at a time.  ASCII capitals move down by 32;
    U+0130 becomes "i" followed by U+0307 and U+212A (the Kelvin sign) becomes
    "k": these are the code points outside ASCII whose lower case has an ASCII
    letter in it.  Every other code point is left in place: its lower case is
    itself when it is a letter a-z, a white-space or any other ASCII character,
    and otherwise lies outside [a-z] and outside white-space, as the code point
    itself does, so that line 49 of the source deletes it in either form. *)
Definition lower_char (c : codepoint) : str :=
  if is_AZ c then [c + 32]
  else if c =? 304 then [105; 775]
  else if c =? 8490 then [107]
  else [c].

Definition lower (s : str) : str := flat_map lower_char s.

(** [re.sub(r'[^a-z\s]', '', s)]: every code point that is neither a-z nor
    white-space is deleted. *)
Definition keep_az_space (c : codepoint) : bool := is_az c || is_space c.

Definition sub_non_az_space (s : str) : str := filter keep_az_space s.

(** [re.sub(r'\s+', ' ', s)]: every maximal run of white-space becomes one
    space.  [in_run] tells that the code point before was white-space, whose
    run has already produced its space. *)
Fixpoint sub_space_runs (in_run : bool) (s : str) : str :=
  match s with
  | [] => []
  | c :: t =>
      if is_space c
      then (if in_run then sub_space_runs true t else 32 :: sub_space_runs true t)
      else c :: sub_space_runs false t
  end.

(** [str.strip()]: white-space is dropped at both ends. *)
Fixpoint lstrip (s : str) : str :=
  match s with
  | [] => []
  | c :: t => if is_space c then lstrip t else s
  end.

Fixpoint rstrip (s : str) : str :=
  match s with
  | [] => []
  | c :: t =>
      match rstrip t with
      | [] => if is_space c then [] else [c]
      | t' => c :: t'
      end
  end.

Definition strip (s : str) : str := rstrip (lstrip s).

(** [sep.join(parts)]. *)
Fixpoint join (sep : str) (parts : list str) : str :=
  match parts with
  | [] => []
  | [p] => p
  | p :: rest => p ++ sep ++ join sep rest
  end.

(** [s.split(",")]: the pieces between commas, at least one piece. *)
Fixpoint split_on (d : codepoint) (s : str) : list str :=
  match s with
  | [] => [[]]
  | c :: t =>
      if c =? d then [] :: split_on d t
      else match split_on d t with
           | [] => [[c]]
           | p :: ps => (c :: p) :: ps
           end
  end.

(** Equality of strings, [==]. *)
Fixpoint eqb (a b : str) : bool :=
  match a, b with
  | [], [] => true
  | x :: a', y :: b' => (x =? y) && eqb a' b'
  | _, _ => false
  end.

(** [x in l] for a list [l] of strings. *)
Definition mem (x : str) (l : list str) : bool := existsb (eqb x) l.

(** [w in s] for two strings: [w] occurs in [s] as a substring. *)
Fixpoint startswith (w s : str) : bool :=
  match w, s with
  | [], _ => true
  | _ :: _, [] => false
  | a :: w', b :: s' => (a =? b) && startswith w' s'
  end.

Fixpoint contains (w s : str) : bool :=
  startswith w s ||
  match s with
  | [] => false
  | _ :: t => contains w t
  end.

(** [str.title()] up to U+00FF: a code point after a cased one is made lower
    case, any other is made title case.  The cased code points are the
    letters of ASCII and of Latin-1 with the two ordinal indicators and the
    micro sign; the sharp s has the title case "Ss", the micro sign U+039C
    and the y with diaeresis U+0178.  A code point above U+00FF is kept and
    taken for uncased. *)
Definition is_lower_latin1 (c : codepoint) : bool :=
  is_az c || (c =? 170) || (c =? 181) || (c =? 186)
  || ((223 <=? c) && (c <=? 246)) || ((248 <=? c) && (c <=? 255)).

Definition is_upper_latin1 (c : codepoint) : bool :=
  is_AZ c || ((192 <=? c) && (c <=? 214)) || ((216 <=? c) && (c <=? 222)).

Definition is_cased (c : codepoint) : bool := is_lower_latin1 c || is_upper_latin1 c.

Definition title_char (c : codepoint) : str :=
  if c =? 223 then [83; 115]
  else if c =? 181 then [924]
  else if c =? 255 then [376]
  else if (c =? 170) || (c =? 186) then [c]
  else if is_lower_latin1 c then [c - 32]
  else [c].

Definition lower_cased_char (c : codepoint) : str :=
  if is_upper_latin1 c then [c + 32] else [c].

Fixpoint title_from (after_cased : bool) (s : str) : str :=
  match s with
  | [] => []
  | c :: t =>
      (if after_cased then lower_cased_char c else title_char c)
      ++ title_from (is_cased c) t
  end.

Definition title (s : str) : str := title_from false s.

(** [str(n)] for an integer. *)
Definition str_of_Z (n : Z) : str := of_string (NilZero.string_of_int (Z.to_int n)).

(** [len(l) <= m] for an integer [m]. *)
Definition len_le {A} (l : list A) (m : Z) : bool := (Z.of_nat (List.length l) <=? m)%Z.

(** [l[:n]], which is what [DataFrame.head(n)] returns: the first [n] rows,
    and for a negative [n] all rows but the last [-n]. *)
Definition head {A} (n : Z) (l : list A) : list A :=
  if (0 <=? n)%Z then firstn (Z.to_nat n) l
  else firstn (List.length l - Z.to_nat (- n))%nat l.

(** The integer nearest to [a / d], ties to the even one. *)
Definition round_half_even (a d : Z) : Z :=
  let f := (a / d)%Z in
  let r := (a mod d)%Z in
  if (2 * r <? d)%Z then f
  else if (d <? 2 * r)%Z then (f + 1)%Z
  else if Z.even f then f else (f + 1)%Z.

(** The double nearest to a rational, ties to the even mantissa: with
    [2^e <= |x| < 2^(e+1)] it is [m * 2^(e-52)] for the integer [m] nearest to
    [|x| / 2^(e-52)].  (For magnitudes in the range of the normal doubles.) *)
Definition nearest_double (x : Q) : Q :=
  let n := Qnum x in
  let d := Zpos (Qden x) in
  if (n =? 0)%Z then 0%Q else
  let a := Z.abs n in
  let k := (Z.log2 a - Z.log2 d)%Z in
  let below := if (0 <=? k)%Z then (a <? d * 2 ^ k)%Z else (a * 2 ^ (- k) <? d)%Z in
  let e := if below then (k - 1)%Z else k in
  let s := (52 - e)%Z in
  let m := if (0 <=? s)%Z then round_half_even (a * 2 ^ s) d
           else round_half_even a (d * 2 ^ (- s)) in
  if (0 <=? s)%Z then Qmake (Z.sgn n * m) (Z.to_pos (2 ^ s))
  else Qmake (Z.sgn n * m * 2 ^ (- s)) 1.

(** [round(x, 3)] for a double [x]: the multiple of 1/1000 nearest to [x],
    ties to the even one, and of that decimal the nearest double. *)
Definition round3 (x : Q) : Q :=
  nearest_double (Qmake (round_half_even (Qnum x * 1000) (Zpos (Qden x))) 1000).

End Py.

Notation "'py' s" := (Py.of_string s%string) (at level 9, s at level 0, only parsing).

(* ================================================================== *)
(** ** The ingredient normalizer (lines 47-51) *)
(* ================================================================== *)

Definition clean_ingredient (ing : str) : str :=
  let ing := Py.lower ing in
  let ing := Py.sub_non_az_space ing in
  let ing := Py.sub_space_runs false ing in
  Py.strip ing.

(* ================================================================== *)
(** ** The vegetarian check (lines 53-55, 100-101) *)
(* ================================================================== *)

Definition is_veg_recipe (ingredients non_veg_keywords : list str) : bool :=
  negb (existsb (fun ing => existsb (fun word => Py.contains word ing) non_veg_keywords)
                ingredients).

Definition non_veg_keywords : list str :=
  [py "chicken"; py "fish"; py "mutton"; py "beef"; py "egg";
   py "bacon"; py "meat"; py "pork"; py "shrimp"; py "lamb"].

(* ================================================================== *)
(** ** Data: the records of train.json and the data frame *)
(* ================================================================== *)

(** One record of train.json. *)
Record Recipe := mkRecipe {
  id : Z;
  cuisine : str;
  ingredients : list str
}.

(** The data frame built by [load_data]: one row per recipe with the column
    [ingredient_text], and the column [score], which a frame has only once
    something was assigned to it. *)
Record Row := mkRow {
  recipe : Recipe;
  ingredient_text : str
}.

Record DataFrame := mkDataFrame {
  rows : list Row;
  score : option (list Q)
}.

(** A row together with its entry of the [score] column. *)
Definition Scored := (Row * Q)%type.

Definition by_score_desc (a b : Scored) : Prop := (snd b <= snd a)%Q.

(* ================================================================== *)
(** ** The libraries behind the calls *)
(* ================================================================== *)

(** What a call returns, or the exception it raises. *)
Inductive exn := ValueError | KeyError.

Inductive result (A : Type) :=
  | Ok (a : A)
  | Raise (e : exn).
Arguments Ok {A} a.
Arguments Raise {A} e.

(** scikit-learn: [TfidfVectorizer] and [cosine_similarity].  Similarities
    are doubles; every finite double is a rational and the program only
    compares and rounds them, so a score is a [Q] (a cosine of two finite
    vectors is never a NaN).  [fit_transform] raises ValueError on documents
    without any token (an empty vocabulary).  The interface fixes the shapes
    only: one matrix row per document and one score per matrix row. *)
Class Sklearn := {
  Vectorizer : Type;
  Matrix : Type;
  Vector : Type;
  fit_transform : list str -> result (Vectorizer * Matrix);
  transform : Vectorizer -> str -> Vector;
  cosine_similarity : Vector -> Matrix -> list Q;
  n_rows : Matrix -> nat;
  fit_transform_rows :
    forall docs v m, fit_transform docs = Ok (v, m) -> n_rows m = List.length docs;
  cosine_similarity_length :
    forall v m, List.length (cosine_similarity v m) = n_rows m
}.

(** pandas: [sort_values(by="score", ascending=False)].  The call names no
    [kind], so the sort is the default quicksort, which pandas documents as
    not stable: the result holds the same rows, by descending score, and the
    interface says nothing on the order of rows with equal scores. *)
Class Pandas := {
  sort_values_desc : list Scored -> list Scored;
  sort_values_perm : forall l, Permutation l (sort_values_desc l);
  sort_values_sorted : forall l, StronglySorted by_score_desc (sort_values_desc l)
}.

(* ================================================================== *)
(** ** The recommendation (lines 57-87) *)
(* ================================================================== *)

Record Recommendation := mkRecommendation {
  Name : str;
  Cuisine : str;
  Matched : list str;
  Unmatched : list str;
  Score : Q
}.

(** [df['score'] = values]: the column is set in the frame itself; pandas
    raises ValueError when a frame with rows gets a column of another length.
    (A frame without rows would take over the length of [values] instead and
    line 64 would raise on its empty cells; that case is reported as the same
    exception here.) *)
Definition set_score (d : DataFrame) (values : list Q) : result DataFrame :=
  if (List.length values =? List.length (rows d))%nat
  then Ok {| rows := rows d; score := Some values |}
  else Raise ValueError.

(** [df[df['ingredients'].apply(len) <= max_ings]] *)
Definition filter_max_ings (max_ings : Z) (l : list Scored) : list Scored :=
  filter (fun r => Py.len_le (ingredients (recipe (fst r))) max_ings) l.

(** [df_filtered[df_filtered['ingredients'].apply(f)]].  On a frame without
    rows [apply] returns an empty column of dtype object, which pandas does
    not take for a boolean mask but for a list of column labels: the result
    is a frame without columns, [None] here. *)
Definition filter_apply (f : list str -> bool) (l : list Scored) : option (list Scored) :=
  match l with
  | [] => None
  | _ => Some (filter (fun r => f (ingredients (recipe (fst r)))) l)
  end.

(** Lines 64-69: the rows of [top_recipes], each with its score. *)
Definition top_recipes {pd : Pandas} (scored : list Scored)
    (top_n : Z) (is_veg : bool) (max_ings : Z) : result (list Scored) :=
  let df_filtered := filter_max_ings max_ings scored in
  let df_filtered :=
    if is_veg
    then filter_apply (fun ings => is_veg_recipe ings non_veg_keywords) df_filtered
    else Some df_filtered in
  match df_filtered with
  | None => Raise KeyError   (* sort_values: no column "score" *)
  | Some df_filtered => Ok (Py.head top_n (sort_values_desc df_filtered))
  end.

(** Lines 75-85: the body of the loop, for one row. *)
Definition explain (user_cleaned : list str) (row : Scored) : Recommendation :=
  let recipe_ings := map clean_ingredient (ingredients (recipe (fst row))) in
  let matched := filter (fun i => Py.mem i recipe_ings) user_cleaned in
  let unmatched := filter (fun i => negb (Py.mem i matched)) recipe_ings in
  {| Name := Py.title (cuisine (recipe (fst row))) ++ py " Dish #"
             ++ Py.str_of_Z (id (recipe (fst row)));
     Cuisine := Py.title (cuisine (recipe (fst row)));
     Matched := matched;
     Unmatched := unmatched;
     Score := Py.round3 (snd row) |}.

(** Lines 94-95: the frame of the records, with the column [ingredient_text]. *)
Definition frame (data : list Recipe) : DataFrame :=
  let text r := Py.join (py " ") (map clean_ingredient (ingredients r)) in
  {| rows := map (fun r => {| recipe := r; ingredient_text := text r |}) data;
     score := None |}.

Section Core.
Context {sk : Sklearn} {pd : Pandas}.

(** What [smart_suggest] is given besides the query: the frame, which it
    writes to, the matrix and the fitted vectorizer. *)
Record World := mkWorld {
  df : DataFrame;
  tfidf_matrix : Matrix;
  vectorizer : Vectorizer
}.

(** Lines 59-61: the similarity of the query to every matrix row. *)
Definition rank (user_ingredients : list str) (w : World) : list Q :=
  let user_input := Py.join (py " ") (map clean_ingredient user_ingredients) in
  let user_vec := transform (vectorizer w) user_input in
  cosine_similarity user_vec (tfidf_matrix w).

(** [smart_suggest(user_ingredients, df, tfidf_matrix, vectorizer, top_n,
    is_veg, max_ings)]: what it returns or raises, and its arguments as the
    call leaves them. *)
Definition smart_suggest (user_ingredients : list str) (w : World)
    (top_n : Z) (is_veg : bool) (max_ings : Z)
  : result (list Recommendation) * World :=
  let cosine_similarities := rank user_ingredients w in
  match set_score (df w) cosine_similarities with
  | Raise e => (Raise e, w)
  | Ok df' =>
      let w' := {| df := df'; tfidf_matrix := tfidf_matrix w;
                   vectorizer := vectorizer w |} in
      match top_recipes (combine (rows df') cosine_similarities)
                        top_n is_veg max_ings with
      | Raise e => (Raise e, w')
      | Ok top =>
          let user_cleaned := map clean_ingredient user_ingredients in
          (Ok (map (explain user_cleaned) top), w')
      end
  end.

(* ================================================================== *)
(** ** Loading the data (lines 90-98) and the button (lines 115-141) *)
(* ================================================================== *)

(** [load_data()], for the records [data] read from train.json.  A frame
    made of no record has no column, and line 95 raises KeyError on its
    column [ingredients]. *)
Definition load_data (data : list Recipe) : result World :=
  match data with
  | [] => Raise KeyError
  | _ :: _ =>
      let df := frame data in
      match fit_transform (map ingredient_text (rows df)) with
      | Ok (vectorizer, tfidf_matrix) =>
          Ok {| df := df; tfidf_matrix := tfidf_matrix; vectorizer := vectorizer |}
      | Raise e => Raise e
      end
  end.

(** Line 117: [[i.strip() for i in user_input.split(",") if i.strip()]]. *)
Definition entered (user_input : str) : list str :=
  map Py.strip
      (filter (fun i => negb (Py.eqb (Py.strip i) [])) (Py.split_on 44 user_input)).

(** What the page shows after "Suggest Recipes". *)
Inductive Shown :=
  | Cards (results : list Recommendation)
  | Warning (message : str)
  | Error (message : str).

(** The body of [if st.button("Suggest Recipes")], for the records of
    train.json and the three inputs of the page: what is shown or raised,
    and the loaded data as the handler leaves them. *)
Definition suggest_recipes (data : list Recipe)
    (user_input : str) (is_veg_choice : str) (max_ings : Z)
  : result Shown * option World :=
  match load_data data with
  | Raise e => (Raise e, None)
  | Ok w =>
      let user_ingredients := entered user_input in
      match user_ingredients with
      | _ :: _ =>
          match smart_suggest user_ingredients w 5
                              (Py.eqb is_veg_choice (py "Yes")) max_ings with
          | (Ok [], w') =>
              (Ok (Warning (py "No recipes matched your filters.")), Some w')
          | (Ok results, w') => (Ok (Cards results), Some w')
          | (Raise e, w') => (Raise e, Some w')
          end
      | [] => (Ok (Error (py "Please enter at least one ingredient.")), Some w)
      end
  end.

(** One matrix row per row of the frame, as [load_data] builds them. *)
Definition consistent (w : World) : Prop :=
  n_rows (tfidf_matrix w) = List.length (rows (df w)).

(** The frame of [w] with this query's similarities as its score column. *)
Definition scored_world (user_ingredients : list str) (w : World) : World :=
  {| df := {| rows := rows (df w); score := Some (rank user_ingredients w) |};
     tfidf_matrix := tfidf_matrix w;
     vectorizer := vectorizer w |}.

End Core.

(* ================================================================== *)
(** ** The dashboard (lines 143-158) *)
(* ================================================================== *)

(** How often [v] occurs in a column. *)
Fixpoint count (v : str) (col : list str) : nat :=
  match col with
  | [] => 0
  | x :: t => ((if Py.eqb v x then 1 else 0) + count v t)%nat
  end.

(** The distinct values of a column, each where it is first seen. *)
Fixpoint first_seen (seen col : list str) : list str :=
  match col with
  | [] => []
  | x :: t => if Py.mem x seen then first_seen seen t
              else x :: first_seen (x :: seen) t
  end.

(** The distinct values of a column with their counts, not yet sorted. *)
Definition tally (col : list str) : list (str * nat) :=
  map (fun v => (v, count v col)) (first_seen [] col).

Definition by_count_desc (a b : str * nat) : Prop := (snd b <= snd a)%nat.

(** pandas: the sort inside [value_counts()], by descending count; as for
    [sort_values], nothing is said on the order of values with equal counts. *)
Class PandasCounts := {
  sort_counts_desc : list (str * nat) -> list (str * nat);
  sort_counts_perm : forall l, Permutation l (sort_counts_desc l);
  sort_counts_sorted : forall l, StronglySorted by_count_desc (sort_counts_desc l)
}.

(** [pd.Series(col).value_counts()] *)
Definition value_counts {pc : PandasCounts} (col : list str) : list (str * nat) :=
  sort_counts_desc (tally col).

(** Line 150: the normalized ingredients of all recipes, in a row. *)
Definition all_ings (d : DataFrame) : list str :=
  flat_map (fun r => map clean_ingredient (ingredients (recipe r))) (rows d).

(** Line 151. *)
Definition common_ings {pc : PandasCounts} (d : DataFrame) : list (str * nat) :=
  Py.head 10 (value_counts (all_ings d)).

(** Line 156. *)
Definition top_cuisines {pc : PandasCounts} (d : DataFrame) : list (str * nat) :=
  Py.head 10 (value_counts (map (fun r => cuisine (recipe r)) (rows d))).

(* ================================================================== *)
(** ** The vocabulary of the properties *)
(* ================================================================== *)

(** The code points of a normalized string: a letter a-z or the space. *)
Definition plain (c : codepoint) : Prop := Py.is_az c = true \/ c = 32.

(** No white-space follows white-space; with [after_space] the string does
    not start with one either. *)
Fixpoint spaced (after_space : bool) (s : str) : Prop :=
  match s with
  | [] => True
  | c :: t =>
      if Py.is_space c then after_space = false /\ spaced true t
      else spaced false t
  end.

(** A string that does not start with white-space. *)
Definition headed (s : str) : Prop :=
  match s with
  | [] => True
  | c :: _ => Py.is_space c = false
  end.

(** A word of letters a-z, as every keyword of [non_veg_keywords] is. *)
Definition letters (w : str) : Prop := Forall (fun c => Py.is_az c = true) w.

(** The breakdown as the specification words it: the recipe's normalized
    ingredients that the user's normalized list holds, in the recipe's order. *)
Definition matched_in_recipe_order (user_cleaned recipe_ings : list str) : list str :=
  filter (fun i => Py.mem i user_cleaned) recipe_ings.

Definition unmatched_in_recipe_order (user_cleaned recipe_ings : list str) : list str :=
  filter (fun i => negb (Py.mem i user_cleaned)) recipe_ings.

Definition by_score_asc (a b : Scored) : Prop := (snd a <= snd b)%Q.

(** The rows that pass the tests of lines 64-67. *)
Definition accepted (is_veg : bool) (max_ings : Z) (scored : list Scored) : list Scored :=
  filter (fun r => Py.len_le (ingredients (recipe (fst r))) max_ings
                   && (negb is_veg
                       || is_veg_recipe (ingredients (recipe (fst r))) non_veg_keywords))
         scored.

(** How many rows [l[:n]] has when [l] has [k]. *)
Definition head_length (n : Z) (k : nat) : nat :=
  if (0 <=? n)%Z then Nat.min (Z.to_nat n) k else (k - Z.to_nat (- n))%nat.

(* ================================================================== *)
(** ** Sorts, a ranker and corpora to run the program on examples *)
(* ================================================================== *)

(** Insertion into a list by ascending score, before the rows of equal score. *)
Fixpoint insert_asc (x : Scored) (l : list Scored) : list Scored :=
  match l with
  | [] => [x]
  | y :: t => if Qle_bool (snd x) (snd y) then x :: l else y :: insert_asc x t
  end.

Definition isort_asc (l : list Scored) : list Scored := fold_right insert_asc [] l.

(** pandas sorts descending by reversing the column, sorting it ascending and
    reversing the outcome.  With a stable ascending sort, rows of equal score
    stay in the order of the frame. *)
Definition sort_desc_stable (l : list Scored) : list Scored := rev (isort_asc (rev l)).

(** Whether a normalized text has a token for [TfidfVectorizer]: two word
    characters in a row, which in a normalized text are two letters. *)
Fixpoint has_token (s : str) : bool :=
  match s with
  | [] => false
  | a :: t =>
      match t with
      | [] => false
      | b :: _ => (Py.is_az a && Py.is_az b) || has_token t
      end
  end.

(** The similarities scikit-learn computes in the examples, to six places,
    for a row with tokens: "flour" is at 1/sqrt 2 from "egg flour"; "milk
    flour" and "flour milk" are at 2/sqrt 6 from "milk egg flour"; a query
    without a token is at 0 from every row. *)
Definition example_hit (query : str) : Q :=
  if Py.eqb query (py "flour") then (707107 # 1000000)%Q
  else if Py.eqb query (py "milk flour") then (816497 # 1000000)%Q
  else if Py.eqb query (py "flour milk") then (816497 # 1000000)%Q
  else 0%Q.

(** A ranker for the examples, in place of the TF-IDF arithmetic: the matrix
    records which rows have a token, a row without one is at 0 from every
    query, and fitting raises when no document has a token. *)
Definition example_fit (docs : list str) : result (unit * list bool) :=
  if existsb has_token docs then Ok (tt, map has_token docs) else Raise ValueError.

Definition example_scores (query : str) (m : list bool) : list Q :=
  map (fun row_has_token : bool => if row_has_token then example_hit query else 0%Q) m.

(** Insertion by descending count, after the values of equal count. *)
Fixpoint insert_count (x : str * nat) (l : list (str * nat)) : list (str * nat) :=
  match l with
  | [] => [x]
  | y :: t => if (snd y <? snd x)%nat then x :: l else y :: insert_count x t
  end.

Definition isort_counts (l : list (str * nat)) : list (str * nat) :=
  fold_right insert_count [] l.

(** The recipe of the specification's end-to-end scenarios, with id [n]. *)
Definition scenario_recipe (n : Z) : Recipe :=
  {| id := n; cuisine := py "italian";
     ingredients := [py "milk"; py "egg"; py "flour"] |}.

(** A recipe whose egg is written with a capital. *)
Definition capital_egg_recipe : Recipe :=
  {| id := 7; cuisine := py "french"; ingredients := [py "Egg"; py "flour"] |}.

(** A recipe without ingredients. *)
Definition bare_recipe : Recipe :=
  {| id := 3; cuisine := py "thai"; ingredients := [] |}.

(** Two recipes that differ in their id only. *)
Definition twin_corpus : list Recipe := [scenario_recipe 1; scenario_recipe 2].

(** The query of the scenarios and what is returned for it on the twins. *)
Definition twin_query : list str := [py "milk"; py "flour"].

Definition twin_result (n : Z) : Recommendation :=
  {| Name := py "Italian Dish #" ++ Py.str_of_Z n; Cuisine := py "Italian";
     Matched := [py "milk"; py "flour"]; Unmatched := [py "egg"];
     Score := Py.nearest_double (816 # 1000) |}.

(** The row of a twin in the scored frame, for the query "milk, flour". *)
Definition twin_row (n : Z) : Scored :=
  ({| recipe := scenario_recipe n; ingredient_text := py "milk egg flour" |},
   (816497 # 1000000)%Q).

(* ================================================================== *)
(** ** The vectorizer and the cosine similarity of the specification *)
(* ================================================================== *)

Module Tfidf.
Local Open Scope R_scope.

(** Modelled from the spec: [TfidfVectorizer] and [cosine_similarity] are
    scikit-learn's (lines 7-8); the source holds their calls only (lines
    60-61 and 96-97).  The definitions of this module follow sections 4.2
    (Corpus Indexer) and 4.3 (Similarity Ranker), with real numbers for the
    weights and the scores.
    The tokens of a document are its whitespace-delimited pieces. *)
Fixpoint tokens_from (word doc : str) : list str :=
  match doc with
  | [] => match word with [] => [] | _ => [rev word] end
  | c :: t =>
      if Py.is_space c
      then match word with
           | [] => tokens_from [] t
           | _ => rev word :: tokens_from [] t
           end
      else tokens_from (c :: word) t
  end.

(** Modelled from the spec: the whitespace-delimited tokens of a document
    (section 4.2); the tokenizer of [TfidfVectorizer] is not in the source. *)
Definition tokens (doc : str) : list str := tokens_from [] doc.

(** Modelled from the spec: the vocabulary fitted by [TfidfVectorizer], the
    distinct tokens that appear in the corpus; the column index of a token
    is its place in this list. *)
Definition vocabulary (docs : list str) : list str :=
  first_seen [] (flat_map tokens docs).

(** Modelled from the spec: a token's frequency within a document, as
    [TfidfVectorizer] counts it. *)
Definition term_frequency (t : str) (doc : str) : nat := count t (tokens doc).

(** Modelled from the spec: the number of documents containing a token, as
    [TfidfVectorizer] counts it. *)
Definition document_frequency (t : str) (docs : list str) : nat :=
  List.length (filter (fun doc => Py.mem t (tokens doc)) docs).

(** Modelled from the spec: the inverse document frequency of
    [TfidfVectorizer], for a token found in [k] of [n] documents; the
    standard smoothed form, which decreases with [k]. *)
Definition idf (n k : nat) : R := ln ((1 + INR n) / (1 + INR k)) + 1.

(** Modelled from the spec: the vectors of [TfidfVectorizer], one weight for
    each column of the fitted space, and its document-by-token matrix, one
    row for each document. *)
Definition Vector := list R.
Definition Matrix := list Vector.

(** Modelled from the spec: the fitted vocabulary and weighting of
    [TfidfVectorizer] (the VectorSpace of section 4.2), one column for each
    token of the vocabulary with its inverse document frequency. *)
Definition VectorSpace := list (str * R).

(** Modelled from the spec: fitting [TfidfVectorizer] on the documents of
    the corpus. *)
Definition fit (docs : list str) : VectorSpace :=
  map (fun t => (t, idf (List.length docs) (document_frequency t docs)))
      (vocabulary docs).

(** Modelled from the spec: the dot product that [cosine_similarity] takes. *)
Fixpoint dot (u v : Vector) : R :=
  match u, v with
  | x :: u', y :: v' => x * y + dot u' v'
  | _, _ => 0
  end.

(** Modelled from the spec: the Euclidean norm of [TfidfVectorizer] and
    [cosine_similarity]. *)
Definition norm (v : Vector) : R := sqrt (dot v v).

(** Modelled from the spec: the all-zero vectors, which [cosine_similarity]
    treats apart. *)
Definition all_zero (v : Vector) : Prop := Forall (fun x => x = 0) v.

(** Modelled from the spec: the test of [cosine_similarity] for an all-zero
    vector. *)
Definition all_zero_dec (v : Vector) : {all_zero v} + {~ all_zero v} :=
  Forall_dec (fun x => x = 0) (fun x => Req_dec_T x 0) v.

(** Modelled from the spec: the L2 normalization of [TfidfVectorizer]; every
    vector but the all-zero one gets unit Euclidean norm. *)
Definition normalize (v : Vector) : Vector :=
  if all_zero_dec v then v else map (fun x => x / norm v) v.

(** Modelled from the spec: the weight that [TfidfVectorizer] gives to every
    (document, token) pair, the token's frequency within the document times
    its inverse document frequency; a token that is not in the vocabulary
    has no column and so no weight. *)
Definition weights (space : VectorSpace) (doc : str) : Vector :=
  map (fun column => INR (term_frequency (fst column) doc) * snd column) space.

(** Modelled from the spec: [vectorizer.transform], the projection of a
    document into the fitted vector space (line 60). *)
Definition transform (space : VectorSpace) (doc : str) : Vector :=
  normalize (weights space doc).

(** Modelled from the spec: [build] of section 4.2, which is
    [vectorizer.fit_transform] on the documents of line 95 (lines 96-97):
    the fitted space and one matrix row for each recipe, in corpus order. *)
Definition build (recipes : list Recipe) : VectorSpace * Matrix :=
  let documents := map ingredient_text (rows (frame recipes)) in
  let space := fit documents in
  (space, map (transform space) documents).

(** Modelled from the spec: the similarity that [cosine_similarity] gives
    to a pair of vectors, the dot product divided by the product of the two
    Euclidean norms, and 0 if either vector is all-zero. *)
Definition cosine (u v : Vector) : R :=
  if all_zero_dec u then 0
  else if all_zero_dec v then 0
  else dot u v / (norm u * norm v).

(** Modelled from the spec: [rank] of section 4.3, which is lines 60-61 with
    [vectorizer.transform] and [cosine_similarity] as above: the similarity
    of the query document to every row of the matrix. *)
Definition rank (query : str) (space : VectorSpace) (matrix : Matrix) : list R :=
  map (cosine (transform space query)) matrix.

End Tfidf.

(* ================================================================== *)
(** ** The example sort is a sort *)
(* ================================================================== *)

Lemma insert_asc_perm x l : Permutation (x :: l) (insert_asc x l).
Proof.
  induction l as [|y t IH]; simpl; [reflexivity|].
  destruct (Qle_bool (snd x) (snd y)); [reflexivity|].
  rewrite perm_swap. now constructor.
Qed.

Lemma isort_asc_perm l : Permutation l (isort_asc l).
Proof.
  induction l as [|x t IH]; simpl; [constructor|].
  rewrite <- insert_asc_perm. now constructor.
Qed.

Lemma insert_asc_sorted x l :
  StronglySorted by_score_asc l -> StronglySorted by_score_asc (insert_asc x l).
Proof.
  induction 1 as [|y t Hs IH Hall]; simpl.
  - repeat constructor.
  - destruct (Qle_bool (snd x) (snd y)) eqn:E.
    + apply Qle_bool_iff in E. constructor; [now constructor|].
      constructor; [exact E|].
      eapply Forall_impl; [|exact Hall].
      intros z Hz. unfold by_score_asc in *. eapply Qle_trans; eassumption.
    + assert (Hlt : (snd y < snd x)%Q).
      { apply Qnot_le_lt. intro Hle. apply Qle_bool_iff in Hle. congruence. }
      constructor; [exact IH|].
      eapply Permutation_Forall; [apply insert_asc_perm|].
      constructor; [now apply Qlt_le_weak | exact Hall].
Qed.

Lemma isort_asc_sorted l : StronglySorted by_score_asc (isort_asc l).
Proof.
  induction l as [|x t IH]; simpl; [constructor | now apply insert_asc_sorted].
Qed.

Lemma StronglySorted_app_one {A} (R : A -> A -> Prop) l x :
  StronglySorted R l -> Forall (fun y => R y x) l -> StronglySorted R (l ++ [x]).
Proof.
  induction 1 as [|y t Hs IH Hall]; intros Hx; simpl.
  - repeat constructor.
  - inversion Hx; subst. constructor; [now apply IH|].
    apply Forall_app; split; [exact Hall | now repeat constructor].
Qed.

Lemma rev_asc_desc l :
  StronglySorted by_score_asc l -> StronglySorted by_score_desc (rev l).
Proof.
  induction 1 as [|y t Hs IH Hall]; simpl; [constructor|].
  apply StronglySorted_app_one; [exact IH|].
  apply Forall_rev. exact Hall.
Qed.

#[local] Program Instance Pandas_stable : Pandas :=
  {| sort_values_desc := sort_desc_stable |}.
Next Obligation.
  unfold sort_desc_stable. rewrite <- Permutation_rev.
  rewrite <- isort_asc_perm. apply Permutation_rev.
Qed.
Next Obligation. apply rev_asc_desc, isort_asc_sorted. Qed.

#[local] Program Instance example_sklearn : Sklearn :=
  {| Vectorizer := unit;
     Matrix := list bool;
     Vector := str;
     fit_transform := example_fit;
     transform := fun _ query => query;
     cosine_similarity := example_scores;
     n_rows := @List.length bool |}.
Next Obligation.
  unfold example_fit in H. destruct (existsb has_token docs); [|discriminate].
  injection H as _ <-. apply length_map.
Qed.
Next Obligation. apply length_map. Qed.

(** What [load_data] returns with that ranker, when it returns. *)
Definition example_world (data : list Recipe) : World (sk := example_sklearn) :=
  {| df := frame data;
     tfidf_matrix := map has_token (map ingredient_text (rows (frame data)));
     vectorizer := tt |}.

(* ================================================================== *)
(** ** The normalizer: examples and idempotence *)
(* ================================================================== *)

Example clean_Egg : clean_ingredient (py "Egg") = py "egg".
Proof. reflexivity. Qed.

Example clean_mixed :
  clean_ingredient (py "  2 Large  EGGS, (beaten) ") = py "large eggs beaten".
Proof. reflexivity. Qed.

Example clean_digits : clean_ingredient (py "123") = [].
Proof. reflexivity. Qed.

Example clean_nbsp : clean_ingredient [160; 75; 160; 160; 8490; 9] = py "k k".
Proof. reflexivity. Qed.

Module Normal.

Lemma az_not_space c : Py.is_az c = true -> Py.is_space c = false.
Proof.
  unfold Py.is_az, Py.is_space. intros H.
  apply andb_true_iff in H. destruct H as [H1 H2].
  apply N.leb_le in H1. apply N.leb_le in H2.
  repeat (apply orb_false_iff; split);
    first [ apply N.eqb_neq; lia
          | apply andb_false_iff; first [ left; apply N.leb_gt; lia
                                        | right; apply N.leb_gt; lia ] ].
Qed.

Lemma az_not_AZ c : Py.is_az c = true -> Py.is_AZ c = false.
Proof.
  unfold Py.is_az, Py.is_AZ. intros H. apply andb_true_iff in H. destruct H as [H1 _].
  apply N.leb_le in H1. apply andb_false_iff. right. apply N.leb_gt. lia.
Qed.

Lemma plain_lower_char c : plain c -> Py.lower_char c = [c].
Proof.
  intros [H | ->]; [|reflexivity].
  unfold Py.lower_char. rewrite (az_not_AZ c H).
  unfold Py.is_az in H. apply andb_true_iff in H. destruct H as [H1 H2].
  apply N.leb_le in H1. apply N.leb_le in H2.
  destruct (N.eqb_spec c 304); [lia|].
  destruct (N.eqb_spec c 8490); [lia|]. reflexivity.
Qed.

Lemma plain_keep c : plain c -> Py.keep_az_space c = true.
Proof.
  unfold Py.keep_az_space. intros [H | ->]; [now rewrite H | reflexivity].
Qed.

Lemma lower_plain s : Forall plain s -> Py.lower s = s.
Proof.
  induction 1 as [|c t Hc _ IH]; simpl; [reflexivity|].
  now rewrite (plain_lower_char c Hc), IH.
Qed.

Lemma sub_non_az_space_plain s : Forall plain s -> Py.sub_non_az_space s = s.
Proof.
  induction 1 as [|c t Hc _ IH]; simpl; [reflexivity|].
  unfold Py.sub_non_az_space in *. simpl. now rewrite (plain_keep c Hc), IH.
Qed.

Lemma sub_space_runs_plain b s :
  Forall (fun c => Py.keep_az_space c = true) s -> Forall plain (Py.sub_space_runs b s).
Proof.
  intros H. revert b. induction H as [|c t Hc _ IH]; intros b; simpl; [constructor|].
  destruct (Py.is_space c) eqn:E.
  - destruct b; [apply IH|]. constructor; [now right | apply IH].
  - constructor; [|apply IH]. left.
    unfold Py.keep_az_space in Hc. rewrite E, orb_false_r in Hc. exact Hc.
Qed.

Lemma sub_space_runs_spaced b s : spaced b (Py.sub_space_runs b s).
Proof.
  revert b. induction s as [|c t IH]; intros b; simpl; [exact I|].
  destruct (Py.is_space c) eqn:E.
  - destruct b; [apply IH|]. simpl. split; [reflexivity | apply IH].
  - simpl. rewrite E. apply IH.
Qed.

Lemma sub_space_runs_fixed b s :
  Forall plain s -> spaced b s -> Py.sub_space_runs b s = s.
Proof.
  intros H. revert b. induction H as [|c t Hc _ IH]; intros b Hs; simpl; [reflexivity|].
  simpl in Hs. destruct Hc as [Hc | ->].
  - rewrite (az_not_space c Hc) in *. now rewrite IH.
  - change (Py.is_space 32) with true in *. cbv iota in *.
    destruct Hs as [-> Hs]. now rewrite IH.
Qed.

Lemma lstrip_plain s : Forall plain s -> Forall plain (Py.lstrip s).
Proof.
  induction 1 as [|c t Hc Ht IH]; simpl; [constructor|].
  destruct (Py.is_space c); [exact IH | now constructor].
Qed.

Lemma lstrip_spaced b s : spaced b s -> spaced false (Py.lstrip s).
Proof.
  revert b. induction s as [|c t IH]; intros b Hs; simpl; [exact I|].
  simpl in Hs. destruct (Py.is_space c) eqn:E.
  - destruct Hs as [_ Hs]. now apply (IH true).
  - simpl. now rewrite E.
Qed.

Lemma rstrip_plain s : Forall plain s -> Forall plain (Py.rstrip s).
Proof.
  induction 1 as [|c t Hc Ht IH]; simpl; [constructor|].
  destruct (Py.rstrip t) as [|d t'].
  - destruct (Py.is_space c); [constructor | constructor; [exact Hc | constructor]].
  - now constructor.
Qed.

Lemma rstrip_spaced b s : spaced b s -> spaced b (Py.rstrip s).
Proof.
  revert b. induction s as [|c t IH]; intros b Hs; simpl; [exact I|].
  simpl in Hs. destruct (Py.rstrip t) as [|d t'] eqn:Et.
  - destruct (Py.is_space c) eqn:E; simpl; [exact I | now rewrite E].
  - simpl spaced at 1. destruct (Py.is_space c).
    + destruct Hs as [Hb Hs]. split; [exact Hb | now apply IH].
    + now apply IH.
Qed.

Lemma rstrip_idem s : Py.rstrip (Py.rstrip s) = Py.rstrip s.
Proof.
  induction s as [|c t IH]; simpl; [reflexivity|].
  destruct (Py.rstrip t) as [|d t'] eqn:Et.
  - destruct (Py.is_space c) eqn:E; simpl; [reflexivity | now rewrite E].
  - change (Py.rstrip (c :: d :: t')) with
      (match Py.rstrip (d :: t') with
       | [] => if Py.is_space c then [] else [c]
       | x => c :: x
       end).
    now rewrite IH.
Qed.

Lemma lstrip_headed s : headed (Py.lstrip s).
Proof.
  induction s as [|c t IH]; simpl; [exact I|].
  destruct (Py.is_space c) eqn:E; [exact IH | exact E].
Qed.

Lemma rstrip_headed s : headed s -> headed (Py.rstrip s).
Proof.
  destruct s as [|c t]; simpl; [trivial|]. intros E.
  destruct (Py.rstrip t); [now rewrite E | exact E].
Qed.

Lemma headed_lstrip s : headed s -> Py.lstrip s = s.
Proof. destruct s as [|c t]; simpl; [trivial|]. now intros ->. Qed.

Lemma strip_idem s : Py.strip (Py.strip s) = Py.strip s.
Proof.
  unfold Py.strip.
  rewrite (headed_lstrip (Py.rstrip (Py.lstrip s))).
  - apply rstrip_idem.
  - apply rstrip_headed, lstrip_headed.
Qed.

Lemma strip_plain s : Forall plain s -> Forall plain (Py.strip s).
Proof. intros H. now apply rstrip_plain, lstrip_plain. Qed.

Lemma strip_spaced b s : spaced b s -> spaced false (Py.strip s).
Proof. intros H. eapply rstrip_spaced, lstrip_spaced, H. Qed.

Lemma clean_plain x : Forall plain (clean_ingredient x).
Proof.
  apply strip_plain, sub_space_runs_plain.
  apply Forall_forall. intros c Hc. now apply filter_In in Hc.
Qed.

Lemma clean_spaced x : spaced false (clean_ingredient x).
Proof. eapply strip_spaced, sub_space_runs_spaced. Qed.

End Normal.

(** C8.  The normalizer is idempotent: cleaning a cleaned string gives the
    cleaned string again, for every string. *)
Theorem clean_ingredient_idempotent (x : str) :
  clean_ingredient (clean_ingredient x) = clean_ingredient x.
Proof.
  pose proof (Normal.clean_plain x) as Hp.
  pose proof (Normal.clean_spaced x) as Hs.
  set (y := clean_ingredient x) in *.
  unfold clean_ingredient at 1. cbv zeta.
  rewrite (Normal.lower_plain y Hp), (Normal.sub_non_az_space_plain y Hp).
  rewrite (Normal.sub_space_runs_fixed false y Hp Hs).
  subst y. unfold clean_ingredient. cbv zeta. apply Normal.strip_idem.
Qed.

(* ================================================================== *)
(** ** Keywords survive the normalizer *)
(* ================================================================== *)

Module Keyword.

Lemma letters_plain w : letters w -> Forall plain w.
Proof. apply Forall_impl. intros c H. now left. Qed.

Lemma startswith_app w q : Py.startswith w (w ++ q) = true.
Proof. induction w as [|c w IH]; simpl; [reflexivity|]. now rewrite N.eqb_refl. Qed.

Lemma startswith_split w s : Py.startswith w s = true -> exists q, s = w ++ q.
Proof.
  revert s. induction w as [|c w IH]; intros s H; simpl in *.
  - now exists s.
  - destruct s as [|d s]; [discriminate|].
    apply andb_true_iff in H. destruct H as [E H]. apply N.eqb_eq in E. subst d.
    destruct (IH s H) as [q ->]. now exists q.
Qed.

Lemma contains_startswith w s : Py.startswith w s = true -> Py.contains w s = true.
Proof. intros H. destruct s; simpl; now rewrite H. Qed.

(** [w in s] holds exactly when [s] is [w] between two strings. *)
Lemma contains_split w s :
  Py.contains w s = true <-> exists p q, s = p ++ w ++ q.
Proof.
  split.
  - induction s as [|c s IH]; simpl; intros H; apply orb_true_iff in H.
    + destruct H as [H | H]; [|discriminate].
      destruct (startswith_split _ _ H) as [q E]. now exists [], q.
    + destruct H as [H | H].
      * destruct (startswith_split _ _ H) as [q E]. now exists [], q.
      * destruct (IH H) as [p [q ->]]. now exists (c :: p), q.
  - intros [p [q ->]]. induction p as [|c p IH].
    + change ([] ++ w ++ q) with (w ++ q). apply contains_startswith, startswith_app.
    + change (Py.contains w ((c :: p) ++ w ++ q))
        with (Py.startswith w (c :: p ++ w ++ q) || Py.contains w (p ++ w ++ q)).
      rewrite IH. apply orb_true_r.
Qed.

Lemma sub_space_runs_word w q b :
  letters w -> exists q', Py.sub_space_runs b (w ++ q) = w ++ q'.
Proof.
  intros H. revert b. induction H as [|c w Hc _ IH]; intros b; simpl.
  - now eexists.
  - rewrite (Normal.az_not_space c Hc). destruct (IH false) as [q' ->]. now exists q'.
Qed.

Lemma sub_space_runs_around p w q b :
  letters w -> exists p' q', Py.sub_space_runs b (p ++ w ++ q) = p' ++ w ++ q'.
Proof.
  intros H. revert b. induction p as [|c p IH]; intros b; simpl.
  - destruct (sub_space_runs_word w q b H) as [q' E]. now exists [], q'.
  - destruct (Py.is_space c); [destruct b|].
    + apply IH.
    + destruct (IH true) as [p' [q' ->]]. now exists (32 :: p'), q'.
    + destruct (IH false) as [p' [q' ->]]. now exists (c :: p'), q'.
Qed.

Lemma lstrip_around p c w q :
  Py.is_space c = false ->
  exists p', Py.lstrip (p ++ (c :: w) ++ q) = p' ++ (c :: w) ++ q.
Proof.
  intros Hc. induction p as [|d p IH]; simpl.
  - rewrite Hc. now exists [].
  - destruct (Py.is_space d); [exact IH | now exists (d :: p)].
Qed.

Lemma rstrip_cons c t : Py.is_space c = false -> Py.rstrip (c :: t) = c :: Py.rstrip t.
Proof. intros Hc. simpl. destruct (Py.rstrip t); [now rewrite Hc | reflexivity]. Qed.

Lemma rstrip_word w q : letters w -> Py.rstrip (w ++ q) = w ++ Py.rstrip q.
Proof.
  induction 1 as [|c w Hc _ IH]; [reflexivity|].
  change ((c :: w) ++ q) with (c :: (w ++ q)).
  rewrite (rstrip_cons c _ (Normal.az_not_space c Hc)), IH. reflexivity.
Qed.

Lemma rstrip_after p x : Py.rstrip x <> [] -> Py.rstrip (p ++ x) = p ++ Py.rstrip x.
Proof.
  intros Hx. induction p as [|c p IH]; [reflexivity|].
  change ((c :: p) ++ x) with (c :: (p ++ x)). cbn [Py.rstrip]. rewrite IH.
  destruct (p ++ Py.rstrip x) eqn:E.
  - apply app_eq_nil in E. tauto.
  - simpl. now rewrite E.
Qed.

Lemma strip_around p c w q :
  letters (c :: w) ->
  exists p' q', Py.strip (p ++ (c :: w) ++ q) = p' ++ (c :: w) ++ q'.
Proof.
  intros H. assert (Hc : Py.is_space c = false).
  { inversion H; subst. now apply Normal.az_not_space. }
  unfold Py.strip. destruct (lstrip_around p c w q Hc) as [p' ->].
  exists p', (Py.rstrip q). rewrite rstrip_after; rewrite (rstrip_word _ q H).
  - reflexivity.
  - discriminate.
Qed.

(** A word of letters that occurs in a string occurs in its normalized form. *)
Lemma contains_clean w s :
  letters w -> Py.contains w s = true -> Py.contains w (clean_ingredient s) = true.
Proof.
  intros Hw H. destruct w as [|c w].
  { destruct (clean_ingredient s); reflexivity. }
  apply contains_split in H. destruct H as [p [q ->]].
  apply contains_split. unfold clean_ingredient. cbv zeta.
  unfold Py.lower. rewrite !flat_map_app.
  change (flat_map Py.lower_char (c :: w)) with (Py.lower (c :: w)).
  rewrite (Normal.lower_plain _ (letters_plain _ Hw)).
  unfold Py.sub_non_az_space. rewrite !filter_app.
  change (filter Py.keep_az_space (c :: w)) with (Py.sub_non_az_space (c :: w)).
  rewrite (Normal.sub_non_az_space_plain _ (letters_plain _ Hw)).
  destruct (sub_space_runs_around
              (filter Py.keep_az_space (flat_map Py.lower_char p)) (c :: w)
              (filter Py.keep_az_space (flat_map Py.lower_char q)) false Hw)
    as [p1 [q1 ->]].
  apply strip_around, Hw.
Qed.

End Keyword.

(** Where the check on the raw ingredients finds a keyword of letters a-z,
    the check on the normalized ingredients finds it too: the two checks
    differ only on recipes that the raw check lets through. *)
Lemma raw_check_rejects_less (ings kws : list str) :
  Forall letters kws ->
  is_veg_recipe ings kws = false ->
  is_veg_recipe (map clean_ingredient ings) kws = false.
Proof.
  unfold is_veg_recipe. rewrite !negb_false_iff, !existsb_exists.
  intros Hk [ing [Hin Hex]]. apply existsb_exists in Hex.
  destruct Hex as [word [Hw Hc]].
  exists (clean_ingredient ing). split; [now apply in_map|].
  apply existsb_exists. exists word. split; [exact Hw|].
  apply Keyword.contains_clean; [|exact Hc].
  eapply Forall_forall in Hk; eassumption.
Qed.

Lemma non_veg_keywords_letters : Forall letters non_veg_keywords.
Proof. repeat constructor. Qed.

(* ================================================================== *)
(** ** Membership, prefixes and the rows that reach the output *)
(* ================================================================== *)

Lemma eqb_eq (a b : str) : Py.eqb a b = true <-> a = b.
Proof.
  revert b. induction a as [|x a IH]; intros [|y b]; simpl;
    try (split; [discriminate | discriminate]).
  - split; reflexivity.
  - rewrite andb_true_iff, N.eqb_eq, IH.
    split; [intros [-> ->]; reflexivity | intros [= -> ->]; auto].
Qed.

Lemma mem_In (x : str) (l : list str) : Py.mem x l = true <-> In x l.
Proof.
  unfold Py.mem. rewrite existsb_exists. split.
  - intros [y [Hy E]]. apply eqb_eq in E. now subst.
  - intros H. exists x. split; [exact H | now apply eqb_eq].
Qed.

Lemma mem_filter (x : str) (f : str -> bool) (l : list str) :
  Py.mem x (filter f l) = Py.mem x l && f x.
Proof.
  apply eq_true_iff_eq.
  rewrite andb_true_iff, !mem_In, filter_In. reflexivity.
Qed.

Lemma head_prefix {A} (n : Z) (l : list A) : exists rest, l = Py.head n l ++ rest.
Proof.
  unfold Py.head. destruct (0 <=? n)%Z; eexists; symmetry; apply firstn_skipn.
Qed.

Lemma head_incl {A} (n : Z) (l : list A) : incl (Py.head n l) l.
Proof.
  destruct (head_prefix n l) as [rest E]. intros x Hx.
  rewrite E. apply in_or_app. now left.
Qed.

Lemma StronglySorted_prefix {A} (R : A -> A -> Prop) (a b : list A) :
  StronglySorted R (a ++ b) -> StronglySorted R a.
Proof.
  induction a as [|x a IH]; simpl; intros H; [constructor|].
  apply StronglySorted_inv in H. destruct H as [Hs Hall].
  constructor; [now apply IH|].
  apply Forall_app in Hall. tauto.
Qed.

Lemma head_sorted {A} (R : A -> A -> Prop) (n : Z) (l : list A) :
  StronglySorted R l -> StronglySorted R (Py.head n l).
Proof.
  intros H. destruct (head_prefix n l) as [rest E].
  rewrite E in H. now apply StronglySorted_prefix in H.
Qed.

Lemma filter_apply_incl f l l' : filter_apply f l = Some l' -> incl l' l.
Proof.
  unfold filter_apply. destruct l as [|x t]; [discriminate|].
  intros [= <-].
  exact (incl_filter (fun r : Scored => f (ingredients (recipe (fst r)))) (x :: t)).
Qed.

Section Rows.
Context {pd : Pandas}.

Lemma top_recipes_incl scored top_n is_veg max_ings top :
  top_recipes scored top_n is_veg max_ings = Ok top -> incl top scored.
Proof.
  unfold top_recipes.
  destruct (if is_veg then _ else _) as [l|] eqn:E; [|discriminate].
  intros [= <-] x Hx. apply head_incl in Hx.
  apply (Permutation_in _ (Permutation_sym (sort_values_perm l))) in Hx.
  assert (Hl : incl l (filter_max_ings max_ings scored)).
  { destruct is_veg; [eapply filter_apply_incl, E | injection E as <-; apply incl_refl]. }
  eapply incl_filter, Hl, Hx.
Qed.

Lemma top_recipes_sorted scored top_n is_veg max_ings top :
  top_recipes scored top_n is_veg max_ings = Ok top ->
  StronglySorted by_score_desc top.
Proof.
  unfold top_recipes.
  destruct (if is_veg then _ else _) as [l|]; [|discriminate].
  intros [= <-]. apply head_sorted, sort_values_sorted.
Qed.

End Rows.

Section CoreFacts.
Context {sk : Sklearn} {pd : Pandas}.

Lemma rank_length q w : List.length (rank q w) = n_rows (tfidf_matrix w).
Proof. unfold rank. apply cosine_similarity_length. Qed.

Lemma load_data_consistent data w : load_data data = Ok w -> consistent w.
Proof.
  unfold consistent, load_data. destruct data as [|r data]; [discriminate|].
  destruct (fit_transform _) as [[v m]|e] eqn:E; [|discriminate].
  intros [= <-]. cbn [tfidf_matrix df].
  rewrite (fit_transform_rows _ _ _ E). apply length_map.
Qed.


Lemma smart_suggest_consistent q w top_n is_veg max_ings :
  consistent w ->
  smart_suggest q w top_n is_veg max_ings =
  (match top_recipes (combine (rows (df w)) (rank q w)) top_n is_veg max_ings with
   | Ok top => Ok (map (explain (map clean_ingredient q)) top)
   | Raise e => Raise e
   end, scored_world q w).
Proof.
  intros Hc. unfold smart_suggest, set_score.
  rewrite rank_length, Hc, Nat.eqb_refl. cbn [rows].
  destruct (top_recipes _ _ _ _); reflexivity.
Qed.

Lemma smart_suggest_Ok q w top_n is_veg max_ings results w' :
  smart_suggest q w top_n is_veg max_ings = (Ok results, w') ->
  w' = scored_world q w /\
  exists top,
    top_recipes (combine (rows (df w)) (rank q w)) top_n is_veg max_ings = Ok top /\
    results = map (explain (map clean_ingredient q)) top.
Proof.
  unfold smart_suggest, set_score.
  destruct (_ =? _)%nat; [|discriminate]. cbn [rows].
  destruct (top_recipes _ _ _ _) as [top|e] eqn:E; [|discriminate].
  intros [= <- <-]. split; [reflexivity|]. now exists top.
Qed.

End CoreFacts.

(* ================================================================== *)
(** ** The examples load, and the scenarios of the specification run *)
(* ================================================================== *)

Lemma load_data_example (data : list Recipe) :
  data <> [] ->
  load_data (sk := example_sklearn) data =
  if existsb has_token (map ingredient_text (rows (frame data)))
  then Ok (example_world data) else Raise ValueError.
Proof.
  intros H. unfold load_data. destruct data as [|r data]; [congruence|].
  cbn [fit_transform example_sklearn]. unfold example_fit.
  destruct (existsb has_token _); reflexivity.
Qed.

Example load_data_without_records :
  load_data (sk := example_sklearn) [] = Raise KeyError.
Proof. reflexivity. Qed.

Example load_data_twins :
  load_data (sk := example_sklearn) twin_corpus = Ok (example_world twin_corpus).
Proof. reflexivity. Qed.

Example load_data_without_tokens :
  load_data (sk := example_sklearn) [bare_recipe] = Raise ValueError.
Proof. reflexivity. Qed.

Example scenario_1 :
  fst (smart_suggest (sk := example_sklearn) (pd := Pandas_stable)
         [py "milk"; py "flour"] (example_world [scenario_recipe 1]) 5 false 10)
  = Ok [ {| Name := py "Italian Dish #1"; Cuisine := py "Italian";
            Matched := [py "milk"; py "flour"]; Unmatched := [py "egg"];
            Score := Py.nearest_double (816 # 1000) |} ].
Proof. vm_compute. reflexivity. Qed.

Example scenario_2 :
  fst (smart_suggest (sk := example_sklearn) (pd := Pandas_stable)
         [py "milk"; py "flour"] (example_world [scenario_recipe 1]) 5 true 10)
  = Ok [].
Proof. vm_compute. reflexivity. Qed.

(* ================================================================== *)
(** ** The filters *)
(* ================================================================== *)

(** C10.  For every keyword list, a recipe without ingredients counts as
    vegetarian, and it passes the ingredient-count test for every threshold
    that is not negative; so such a row of the frame is in the filtered frame,
    with the vegetarian filter on as with it off. *)
Theorem empty_recipe_passes_filters (kws : list str) (max_ings : Z) :
  (0 <= max_ings)%Z ->
  is_veg_recipe [] kws = true /\
  Py.len_le (@nil str) max_ings = true /\
  forall (l : list Scored) (r : Scored),
    In r l -> ingredients (recipe (fst r)) = [] ->
    In r (filter_max_ings max_ings l) /\
    exists l', filter_apply (fun ings => is_veg_recipe ings kws)
                            (filter_max_ings max_ings l) = Some l' /\ In r l'.
Proof.
  intros Hm.
  assert (Hlen : Py.len_le (@nil str) max_ings = true).
  { unfold Py.len_le. simpl. now apply Z.leb_le. }
  split; [reflexivity|]. split; [exact Hlen|].
  intros l r Hr He.
  assert (Hin : In r (filter_max_ings max_ings l)).
  { unfold filter_max_ings. apply filter_In. split; [exact Hr | now rewrite He]. }
  split; [exact Hin|].
  unfold filter_apply. destruct (filter_max_ings max_ings l) as [|x t] eqn:E.
  - destruct Hin.
  - eexists. split; [reflexivity|].
    apply filter_In. split; [exact Hin | now rewrite He].
Qed.

Lemma empty_recipe_passes_filters_witness :
  is_veg_recipe [] non_veg_keywords = true /\
  Py.len_le (@nil str) 0 = true /\
  forall (l : list Scored) (r : Scored),
    In r l -> ingredients (recipe (fst r)) = [] ->
    In r (filter_max_ings 0 l) /\
    exists l', filter_apply (fun ings => is_veg_recipe ings non_veg_keywords)
                            (filter_max_ings 0 l) = Some l' /\ In r l'.
Proof. apply (empty_recipe_passes_filters non_veg_keywords 0). lia. Defined.

(** C1.  The vegetarian check is run on the ingredients as the data set
    writes them, not on the normalized ones.  What it rejects, the check on
    the normalized ingredients rejects too, but not the other way round:
    "Egg" holds no keyword, its normalized form "egg" does, and with the
    vegetarian filter on the recipe is recommended, its own explanation
    listing "egg". *)
Theorem vegetarian_check_reads_raw_ingredients :
  (forall ings, is_veg_recipe ings non_veg_keywords = false ->
                is_veg_recipe (map clean_ingredient ings) non_veg_keywords = false) /\
  is_veg_recipe (ingredients capital_egg_recipe) non_veg_keywords = true /\
  is_veg_recipe (map clean_ingredient (ingredients capital_egg_recipe))
                non_veg_keywords = false /\
  fst (smart_suggest (sk := example_sklearn) (pd := Pandas_stable)
         [py "flour"] (example_world [capital_egg_recipe]) 5 true 10)
  = Ok [ {| Name := py "French Dish #7"; Cuisine := py "French";
            Matched := [py "flour"]; Unmatched := [py "egg"];
            Score := Py.nearest_double (707 # 1000) |} ].
Proof.
  split.
  - intros ings. apply raw_check_rejects_less, non_veg_keywords_letters.
  - repeat split; vm_compute; reflexivity.
Qed.

(* ================================================================== *)
(** ** The explanation of a result: Matched and Unmatched *)
(* ================================================================== *)

Lemma explain_Unmatched user_cleaned row :
  Unmatched (explain user_cleaned row) =
  unmatched_in_recipe_order user_cleaned
    (map clean_ingredient (ingredients (recipe (fst row)))).
Proof.
  unfold explain, unmatched_in_recipe_order. cbn [Unmatched].
  apply filter_ext_in. intros i Hi.
  rewrite mem_filter. apply mem_In in Hi. now rewrite Hi, andb_true_r.
Qed.

Lemma explain_partition user_cleaned row (x : str) :
  let recipe_ings := map clean_ingredient (ingredients (recipe (fst row))) in
  let r := explain user_cleaned row in
  (In x recipe_ings <-> In x (Matched r) \/ In x (Unmatched r)) /\
  ~ (In x (Matched r) /\ In x (Unmatched r)).
Proof.
  cbv zeta. rewrite explain_Unmatched.
  unfold explain, unmatched_in_recipe_order. cbn [Matched].
  rewrite !filter_In, mem_In, negb_true_iff.
  destruct (Py.mem x user_cleaned) eqn:E.
  - apply mem_In in E. split; [tauto|]. intros [_ [_ H]]. discriminate.
  - split; [tauto|]. intros [[H _] _]. apply mem_In in H. congruence.
Qed.

(** C2, as stated, fails: for the query "flour, milk" and the recipe milk,
    egg, flour the list Matched is flour, milk, in the order of the query,
    where the recipe's order gives milk, flour. *)
Lemma matched_follows_query_order :
  map Matched
    (match fst (smart_suggest (sk := example_sklearn) (pd := Pandas_stable)
                  [py "flour"; py "milk"] (example_world [scenario_recipe 1]) 5 false 10)
     with Ok results => results | Raise _ => [] end)
  = [[py "flour"; py "milk"]]
  /\ matched_in_recipe_order
       (map clean_ingredient [py "flour"; py "milk"])
       (map clean_ingredient (ingredients (scenario_recipe 1)))
     = [py "milk"; py "flour"]
  /\ [py "flour"; py "milk"] <> [py "milk"; py "flour"].
Proof. repeat split; try (vm_compute; reflexivity). discriminate. Qed.

Lemma Forall2_map_left {A B} (f : A -> B) (P : B -> A -> Prop) (l : list A) :
  Forall (fun a => P (f a) a) l -> Forall2 P (map f l) l.
Proof. induction 1; cbn [map]; constructor; assumption. Qed.

Section Explanation.
Context {sk : Sklearn} {pd : Pandas}.

(** C2, amended.  The results that are returned are, one for one and in
    their order, the explanations of the rows that the call retained (the
    rows of [top_recipes], which are rows of the frame): for each result and
    its own row, Matched holds the user's normalized ingredients that are
    among that recipe's normalized ingredients, in the order of the query;
    Unmatched holds that recipe's normalized ingredients that are not in the
    user's list, in the recipe's order; and every normalized ingredient of
    that recipe is in one of the two lists and in one only. *)
Theorem matched_unmatched_breakdown
    (user_ingredients : list str) (w : World) (top_n : Z) (is_veg : bool)
    (max_ings : Z) (results : list Recommendation) (w' : World) :
  smart_suggest user_ingredients w top_n is_veg max_ings = (Ok results, w') ->
  exists top,
    top_recipes (combine (rows (df w)) (rank user_ingredients w))
                top_n is_veg max_ings = Ok top /\
    Forall2 (fun r row =>
      In (fst row) (rows (df w)) /\
      let user_cleaned := map clean_ingredient user_ingredients in
      let recipe_ings := map clean_ingredient (ingredients (recipe (fst row))) in
      r = explain user_cleaned row /\
      Matched r = filter (fun i => Py.mem i recipe_ings) user_cleaned /\
      Unmatched r = unmatched_in_recipe_order user_cleaned recipe_ings /\
      forall x, (In x recipe_ings <-> In x (Matched r) \/ In x (Unmatched r)) /\
                ~ (In x (Matched r) /\ In x (Unmatched r)))
      results top.
Proof.
  intros H. apply smart_suggest_Ok in H.
  destruct H as [_ [top [Htop ->]]].
  exists top. split; [exact Htop|].
  apply Forall2_map_left, Forall_forall. intros row Hrow.
  apply (top_recipes_incl _ _ _ _ _ Htop) in Hrow.
  split.
  - destruct row as [a q]. now apply in_combine_l in Hrow.
  - cbv zeta. split; [reflexivity|]. split; [reflexivity|].
    split; [apply explain_Unmatched|].
    intros x. apply explain_partition.
Qed.

End Explanation.

Lemma matched_unmatched_breakdown_witness :
  exists top,
    top_recipes (pd := Pandas_stable)
      (combine (rows (df (example_world [bare_recipe; scenario_recipe 1])))
               (rank (sk := example_sklearn) [py "flour"; py "milk"]
                     (example_world [bare_recipe; scenario_recipe 1])))
      5 false 10 = Ok top /\
    Forall2 (fun r row =>
      In (fst row) (rows (df (example_world [bare_recipe; scenario_recipe 1]))) /\
      let user_cleaned := map clean_ingredient [py "flour"; py "milk"] in
      let recipe_ings := map clean_ingredient (ingredients (recipe (fst row))) in
      r = explain user_cleaned row /\
      Matched r = filter (fun i => Py.mem i recipe_ings) user_cleaned /\
      Unmatched r = unmatched_in_recipe_order user_cleaned recipe_ings /\
      forall x, (In x recipe_ings <-> In x (Matched r) \/ In x (Unmatched r)) /\
                ~ (In x (Matched r) /\ In x (Unmatched r)))
      [ {| Name := py "Italian Dish #1"; Cuisine := py "Italian";
           Matched := [py "flour"; py "milk"]; Unmatched := [py "egg"];
           Score := Py.nearest_double (816 # 1000) |};
        {| Name := py "Thai Dish #3"; Cuisine := py "Thai";
           Matched := []; Unmatched := [];
           Score := 0%Q |} ]
      top.
Proof.
  apply (matched_unmatched_breakdown (sk := example_sklearn) (pd := Pandas_stable)
           [py "flour"; py "milk"] (example_world [bare_recipe; scenario_recipe 1])
           5 false 10 _
           (scored_world [py "flour"; py "milk"]
                         (example_world [bare_recipe; scenario_recipe 1]))).
  vm_compute. reflexivity.
Defined.

(* ================================================================== *)
(** ** The order of the results *)
(* ================================================================== *)

Module Rounding.
Local Open Scope Z_scope.

Lemma round_half_even_spec a d :
  0 < d ->
  let n := Py.round_half_even a d in
  - d <= 2 * (d * n - a) <= d /\
  (2 * (d * n - a) = d \/ 2 * (d * n - a) = - d -> Z.even n = true).
Proof.
  intros Hd. cbv zeta. unfold Py.round_half_even.
  pose proof (Z.div_mod a d ltac:(lia)) as E.
  pose proof (Z.mod_pos_bound a d Hd) as B.
  set (f := a / d) in *. set (r := a mod d) in *.
  destruct (Z.ltb_spec (2 * r) d).
  - split; [nia|]. intros [H1 | H1]; nia.
  - destruct (Z.ltb_spec d (2 * r)).
    + split; [nia|]. intros [H1 | H1]; nia.
    + destruct (Z.even f) eqn:Ev.
      * split; [nia|]. intros _. exact Ev.
      * split; [nia|]. intros _.
        replace (f + 1) with (Z.succ f) by lia.
        rewrite Z.even_succ, <- Z.negb_even, Ev. reflexivity.
Qed.

(** Two values half a unit from their roundings, one unit apart, cannot both
    have gone to an even integer: rounding keeps the order. *)
Lemma round_half_even_mono a1 d1 a2 d2 :
  0 < d1 -> 0 < d2 -> a1 * d2 <= a2 * d1 ->
  Py.round_half_even a1 d1 <= Py.round_half_even a2 d2.
Proof.
  intros H1 H2 Hle.
  pose proof (round_half_even_spec a1 d1 H1) as [B1 T1].
  pose proof (round_half_even_spec a2 d2 H2) as [B2 T2].
  set (n1 := Py.round_half_even a1 d1) in *.
  set (n2 := Py.round_half_even a2 d2) in *.
  destruct (Z_le_gt_dec n1 n2) as [|Hgt]; [assumption|exfalso].
  set (e1 := 2 * (d1 * n1 - a1)) in *.
  set (e2 := 2 * (d2 * n2 - a2)) in *.
  assert (P : 0 < d1 * d2) by nia.
  assert (K1 : e1 * d2 <= d1 * d2) by nia.
  assert (K2 : - (e2 * d1) <= d1 * d2) by nia.
  assert (K3 : d1 * d2 <= d1 * d2 * (n1 - n2)) by nia.
  assert (K4 : 2 * (d1 * d2 * (n1 - n2)) <= e1 * d2 - e2 * d1) by (subst e1 e2; nia).
  assert (N : n1 = n2 + 1) by nia.
  assert (E1 : e1 = d1) by nia.
  assert (E2 : e2 = - d2) by nia.
  specialize (T1 (or_introl E1)). specialize (T2 (or_intror E2)).
  rewrite N in T1. replace (n2 + 1) with (Z.succ n2) in T1 by lia.
  rewrite Z.even_succ, <- Z.negb_even, T2 in T1. discriminate.
Qed.

End Rounding.

Example twin_rows_scored :
  let w := example_world twin_corpus in
  combine (rows (df w)) (rank [py "milk"; py "flour"] w) = [twin_row 1; twin_row 2].
Proof. vm_compute. reflexivity. Qed.

Example twins_under_a_stable_sort :
  map Name
    (match fst (smart_suggest (sk := example_sklearn) (pd := Pandas_stable)
                  [py "milk"; py "flour"] (example_world twin_corpus) 5 false 10)
     with Ok results => results | Raise _ => [] end)
  = [py "Italian Dish #1"; py "Italian Dish #2"].
Proof. vm_compute. reflexivity. Qed.

Section Order.
Context {sk : Sklearn} {pd : Pandas}.

(** X18.  The results that are returned are by descending similarity: they
    explain, one by one and in this order, rows of the frame with their own
    similarities, and no row comes after a row of lower similarity. *)
Theorem results_by_descending_similarity
    (user_ingredients : list str) (w : World) (top_n : Z) (is_veg : bool)
    (max_ings : Z) (results : list Recommendation) (w' : World) :
  smart_suggest user_ingredients w top_n is_veg max_ings = (Ok results, w') ->
  exists top,
    results = map (explain (map clean_ingredient user_ingredients)) top /\
    incl top (combine (rows (df w)) (rank user_ingredients w)) /\
    StronglySorted by_score_desc top.
Proof.
  intros H. apply smart_suggest_Ok in H. destruct H as [_ [top [Htop ->]]].
  pose proof (top_recipes_sorted _ _ _ _ _ Htop) as Hs.
  exists top. repeat split; [|exact Hs].
  eapply top_recipes_incl, Htop.
Qed.

End Order.

Lemma results_by_descending_similarity_witness :
  exists top,
    [ twin_result 1;
      {| Name := py "Thai Dish #3"; Cuisine := py "Thai";
         Matched := []; Unmatched := []; Score := 0%Q |} ]
    = map (explain (map clean_ingredient twin_query)) top /\
    incl top (combine (rows (df (example_world [bare_recipe; scenario_recipe 1])))
                      (rank twin_query (example_world [bare_recipe; scenario_recipe 1]))) /\
    StronglySorted by_score_desc top.
Proof.
  apply (results_by_descending_similarity (sk := example_sklearn) (pd := Pandas_stable)
           twin_query (example_world [bare_recipe; scenario_recipe 1]) 5 false 10 _
           (scored_world twin_query (example_world [bare_recipe; scenario_recipe 1]))).
  vm_compute. reflexivity.
Defined.

(* ================================================================== *)
(** ** Thresholds that are zero or negative *)
(* ================================================================== *)

Lemma in_combine_left {A B} (l : list A) (l' : list B) (x : A) :
  List.length l = List.length l' -> In x l -> exists y, In (x, y) (combine l l').
Proof.
  revert l'. induction l as [|a l IH]; intros [|b l'] Hlen Hx; simpl in *;
    try contradiction; try discriminate.
  destruct Hx as [-> | Hx].
  - exists b. now left.
  - destruct (IH l' ltac:(lia) Hx) as [y Hy]. exists y. now right.
Qed.

Lemma filter_max_ings_negative max_ings l :
  (max_ings < 0)%Z -> filter_max_ings max_ings l = [].
Proof.
  intros Hm. unfold filter_max_ings. induction l as [|r l IH]; simpl; [reflexivity|].
  unfold Py.len_le at 1. destruct (Z.leb_spec (Z.of_nat (List.length (ingredients (recipe (fst r))))) max_ings);
    [lia | exact IH].
Qed.

Lemma head_zero {A} (l : list A) : Py.head 0 l = [].
Proof. reflexivity. Qed.

Lemma head_nil {A} (n : Z) : Py.head n (@nil A) = [].
Proof. unfold Py.head. destruct (0 <=? n)%Z; apply firstn_nil. Qed.

Section Thresholds.
Context {sk : Sklearn} {pd : Pandas}.

Lemma sort_values_nil : sort_values_desc [] = [].
Proof. apply Permutation_nil, sort_values_perm. Qed.

Lemma top_recipes_empty scored top_n is_veg max_ings top :
  top_n = 0%Z \/ (max_ings < 0)%Z ->
  top_recipes scored top_n is_veg max_ings = Ok top -> top = [].
Proof.
  intros Hz. unfold top_recipes.
  destruct (if is_veg then _ else _) as [l|] eqn:E; [|discriminate].
  intros [= <-]. destruct Hz as [-> | Hm]; [apply head_zero|].
  rewrite (filter_max_ings_negative _ scored Hm) in E.
  destruct is_veg; [discriminate|]. injection E as <-.
  rewrite sort_values_nil. apply head_nil.
Qed.

Lemma top_recipes_returns scored top_n is_veg max_ings :
  is_veg = false \/
  (exists r, In r scored /\ Py.len_le (ingredients (recipe (fst r))) max_ings = true) ->
  exists top, top_recipes scored top_n is_veg max_ings = Ok top.
Proof.
  intros H. unfold top_recipes. destruct is_veg; [|eexists; reflexivity].
  destruct H as [H | [r [Hr Hl]]]; [discriminate|].
  assert (Hin : In r (filter_max_ings max_ings scored)).
  { apply filter_In. now split. }
  unfold filter_apply. destruct (filter_max_ings max_ings scored); [destruct Hin|].
  eexists; reflexivity.
Qed.

(** C5, amended.  On a frame with one matrix row per recipe: with [top_n = 0]
    or a negative [max_ings], whatever list is returned is empty, and the
    empty list is returned whenever the vegetarian filter is off or some
    recipe passes the ingredient-count test. *)
Theorem no_results_for_zero_top_n_or_negative_max_ings
    (user_ingredients : list str) (w : World) (top_n : Z) (is_veg : bool)
    (max_ings : Z) :
  consistent w ->
  top_n = 0%Z \/ (max_ings < 0)%Z ->
  (forall results,
     fst (smart_suggest user_ingredients w top_n is_veg max_ings) = Ok results ->
     results = []) /\
  (is_veg = false \/
   (exists row, In row (rows (df w)) /\
                Py.len_le (ingredients (recipe row)) max_ings = true) ->
   fst (smart_suggest user_ingredients w top_n is_veg max_ings) = Ok []).
Proof.
  intros Hc Hz. rewrite (smart_suggest_consistent _ _ _ _ _ Hc). cbn [fst].
  assert (Hempty : forall top,
            top_recipes (combine (rows (df w)) (rank user_ingredients w))
                        top_n is_veg max_ings = Ok top -> top = []).
  { intros top. now apply top_recipes_empty. }
  split.
  - intros results.
    destruct (top_recipes _ _ _ _) as [top|e]; [|discriminate].
    intros [= <-]. now rewrite (Hempty top eq_refl).
  - intros Hr.
    destruct (top_recipes_returns (combine (rows (df w)) (rank user_ingredients w))
                top_n is_veg max_ings) as [top Htop].
    { destruct Hr as [Hv | [row [Hrow Hl]]]; [now left | right].
      destruct (in_combine_left (rows (df w)) (rank user_ingredients w) row) as [y Hy];
        [now rewrite rank_length | exact Hrow |].
      exists (row, y). now split. }
    rewrite Htop. now rewrite (Hempty top Htop).
Qed.

End Thresholds.

Lemma no_results_for_zero_top_n_or_negative_max_ings_witness :
  (forall results,
     fst (smart_suggest (sk := example_sklearn) (pd := Pandas_stable)
            [py "milk"; py "flour"] (example_world twin_corpus) 0 true 10) = Ok results ->
     results = []) /\
  (true = false \/
   (exists row, In row (rows (df (example_world twin_corpus))) /\
                Py.len_le (ingredients (recipe row)) 10 = true) ->
   fst (smart_suggest (sk := example_sklearn) (pd := Pandas_stable)
          [py "milk"; py "flour"] (example_world twin_corpus) 0 true 10) = Ok []).
Proof.
  apply (no_results_for_zero_top_n_or_negative_max_ings
           (sk := example_sklearn) (pd := Pandas_stable)
           [py "milk"; py "flour"] (example_world twin_corpus) 0 true 10).
  - vm_compute. reflexivity.
  - left. reflexivity.
Defined.

(** C5, as stated, fails: with [top_n = -1] the call returns all accepted
    recipes but the last one, and with [max_ings = 0] a recipe without
    ingredients is accepted and returned. *)
Lemma results_for_nonpositive_arguments :
  fst (smart_suggest (sk := example_sklearn) (pd := Pandas_stable)
         [py "milk"; py "flour"] (example_world twin_corpus) (-1) false 10)
  = Ok [ {| Name := py "Italian Dish #1"; Cuisine := py "Italian";
            Matched := [py "milk"; py "flour"]; Unmatched := [py "egg"];
            Score := Py.nearest_double (816 # 1000) |} ]
  /\
  fst (smart_suggest (sk := example_sklearn) (pd := Pandas_stable)
         [py "milk"; py "flour"] (example_world [bare_recipe; scenario_recipe 1]) 5 true 0)
  = Ok [ {| Name := py "Thai Dish #3"; Cuisine := py "Thai";
            Matched := []; Unmatched := []; Score := 0%Q |} ].
Proof. split; vm_compute; reflexivity. Qed.

(* ================================================================== *)
(** ** Queries without a letter *)
(* ================================================================== *)

Lemma entered_nil user_input :
  entered user_input = [] <->
  Forall (fun piece => Py.strip piece = []) (Py.split_on 44 user_input).
Proof.
  unfold entered. generalize (Py.split_on 44 user_input) as pieces.
  induction pieces as [|p ps IH]; simpl.
  - split; [constructor | reflexivity].
  - destruct (Py.eqb (Py.strip p) []) eqn:E; simpl.
    + apply eqb_eq in E. rewrite IH. split.
      * intros H. now constructor.
      * intros H. now inversion H.
    + split; [discriminate|]. intros H. inversion H as [|? ? Hp _]; subst.
      apply eqb_eq in Hp. congruence.
Qed.

(** C4, as stated, fails: "123" normalizes to the empty string, the handler
    lets it through, and the call scores it (every similarity is 0, and the
    frame holds them afterwards) and returns both recipes; called with no
    ingredient at all, [smart_suggest] does the same. *)
Lemma letter_free_query_is_scored :
  clean_ingredient (py "123") = [] /\
  suggest_recipes (sk := example_sklearn) (pd := Pandas_stable)
    twin_corpus (py "123") (py "No") 10
  = (Ok (Cards
       [ {| Name := py "Italian Dish #1"; Cuisine := py "Italian"; Matched := [];
            Unmatched := [py "milk"; py "egg"; py "flour"]; Score := 0%Q |};
         {| Name := py "Italian Dish #2"; Cuisine := py "Italian"; Matched := [];
            Unmatched := [py "milk"; py "egg"; py "flour"]; Score := 0%Q |} ]),
     Some (scored_world [py "123"] (example_world twin_corpus))) /\
  score (df (scored_world (sk := example_sklearn)
               [py "123"] (example_world twin_corpus))) = Some [0%Q; 0%Q] /\
  fst (smart_suggest (sk := example_sklearn) (pd := Pandas_stable)
         [] (example_world twin_corpus) 5 false 10)
  = Ok [ {| Name := py "Italian Dish #1"; Cuisine := py "Italian"; Matched := [];
            Unmatched := [py "milk"; py "egg"; py "flour"]; Score := 0%Q |};
         {| Name := py "Italian Dish #2"; Cuisine := py "Italian"; Matched := [];
            Unmatched := [py "milk"; py "egg"; py "flour"]; Score := 0%Q |} ].
Proof. repeat split; vm_compute; reflexivity. Qed.

Section Rejection.
Context {sk : Sklearn} {pd : Pandas}.

Lemma suggest_recipes_loaded data w user_input is_veg_choice max_ings :
  load_data data = Ok w ->
  suggest_recipes data user_input is_veg_choice max_ings =
  match entered user_input with
  | _ :: _ =>
      match top_recipes (combine (rows (df w)) (rank (entered user_input) w))
                        5 (Py.eqb is_veg_choice (py "Yes")) max_ings with
      | Ok [] => (Ok (Warning (py "No recipes matched your filters.")),
                  Some (scored_world (entered user_input) w))
      | Ok top =>
          (Ok (Cards (map (explain (map clean_ingredient (entered user_input))) top)),
           Some (scored_world (entered user_input) w))
      | Raise e => (Raise e, Some (scored_world (entered user_input) w))
      end
  | [] => (Ok (Error (py "Please enter at least one ingredient.")), Some w)
  end.
Proof.
  intros Hl. unfold suggest_recipes. rewrite Hl. cbv zeta.
  destruct (entered user_input) as [|i rest]; [reflexivity|].
  rewrite (smart_suggest_consistent _ _ _ _ _ (load_data_consistent _ _ Hl)).
  destruct (top_recipes _ _ _ _) as [[|x top]|e]; reflexivity.
Qed.

(** C4, amended.  Once the data are loaded, a query is rejected by the button
    handler only, and exactly when every piece between the commas of the
    text is empty or white-space.  Such a text is rejected with no scoring
    performed: the handler leaves the loaded data as [load_data] returned
    them, and their frame has no score column.  Any other text is passed on,
    whatever its pieces normalize to, and the frame then holds the
    similarities of that query.  [smart_suggest] rejects no ingredient list,
    the empty one included: on a frame with one matrix row per recipe it
    scores the query and returns a list whenever the vegetarian filter is
    off or some recipe passes the ingredient-count test. *)
Theorem only_blank_input_is_rejected
    (data : list Recipe) (w : World) (user_input is_veg_choice : str) (max_ings : Z) :
  load_data data = Ok w ->
  (fst (suggest_recipes data user_input is_veg_choice max_ings)
   = Ok (Error (py "Please enter at least one ingredient."))
   <-> Forall (fun piece => Py.strip piece = []) (Py.split_on 44 user_input)) /\
  (Forall (fun piece => Py.strip piece = []) (Py.split_on 44 user_input) ->
   snd (suggest_recipes data user_input is_veg_choice max_ings) = Some w /\
   score (df w) = None) /\
  (~ Forall (fun piece => Py.strip piece = []) (Py.split_on 44 user_input) ->
   snd (suggest_recipes data user_input is_veg_choice max_ings)
   = Some (scored_world (entered user_input) w)) /\
  (forall user_ingredients w0 top_n is_veg max_ings',
     consistent w0 ->
     is_veg = false \/
     (exists row, In row (rows (df w0)) /\
                  Py.len_le (ingredients (recipe row)) max_ings' = true) ->
     exists results,
       smart_suggest user_ingredients w0 top_n is_veg max_ings'
       = (Ok results, scored_world user_ingredients w0)).
Proof.
  intros Hl. rewrite (suggest_recipes_loaded _ _ _ _ _ Hl), <- entered_nil.
  split; [|split; [|split]].
  - destruct (entered user_input) as [|i rest] eqn:E.
    + split; reflexivity.
    + split; [|discriminate].
      destruct (top_recipes _ _ _ _) as [[|x top]|e]; cbn; discriminate.
  - intros ->. split; [reflexivity|].
    unfold load_data in Hl. destruct data as [|r data]; [discriminate|].
    destruct (fit_transform _) as [[v m]|e]; [|discriminate].
    now injection Hl as <-.
  - intros Hne. destruct (entered user_input) as [|i rest] eqn:E; [congruence|].
    destruct (top_recipes _ _ _ _) as [[|x top]|e]; reflexivity.
  - intros q w0 top_n is_veg m Hc Hr.
    rewrite (smart_suggest_consistent _ _ _ _ _ Hc).
    destruct (top_recipes_returns (combine (rows (df w0)) (rank q w0)) top_n is_veg m)
      as [top Htop].
    { destruct Hr as [Hv | [row [Hrow Hl']]]; [now left | right].
      destruct (in_combine_left (rows (df w0)) (rank q w0) row) as [y Hy];
        [now rewrite rank_length | exact Hrow |].
      exists (row, y). now split. }
    rewrite Htop. eexists; reflexivity.
Qed.

(* ================================================================== *)
(** ** What a call leaves behind *)
(* ================================================================== *)

(** C9, amended.  A call leaves the matrix, the vectorizer and the rows of
    the frame as they were.  The score column of the frame is written: it is
    as before only when the assignment raised, and on a frame with one
    matrix row per recipe it holds the similarities of this query. *)
Theorem smart_suggest_frame
    (user_ingredients : list str) (w : World) (top_n : Z) (is_veg : bool)
    (max_ings : Z) :
  let w' := snd (smart_suggest user_ingredients w top_n is_veg max_ings) in
  tfidf_matrix w' = tfidf_matrix w /\
  vectorizer w' = vectorizer w /\
  rows (df w') = rows (df w) /\
  (score (df w') = Some (rank user_ingredients w) \/
   w' = w /\ fst (smart_suggest user_ingredients w top_n is_veg max_ings)
             = Raise ValueError) /\
  (consistent w -> score (df w') = Some (rank user_ingredients w)).
Proof.
  cbv zeta. unfold smart_suggest, set_score, consistent.
  rewrite rank_length.
  destruct (Nat.eqb_spec (n_rows (tfidf_matrix w)) (List.length (rows (df w)))) as [E|E].
  - cbn [rows]. destruct (top_recipes _ _ _ _); cbn; repeat split; auto.
  - cbn. repeat split; auto. intros; contradiction.
Qed.

End Rejection.

Lemma only_blank_input_is_rejected_witness :
  (fst (suggest_recipes (sk := example_sklearn) (pd := Pandas_stable)
          twin_corpus (py " , ") (py "Yes") 10)
   = Ok (Error (py "Please enter at least one ingredient."))
   <-> Forall (fun piece => Py.strip piece = []) (Py.split_on 44 (py " , "))) /\
  (Forall (fun piece => Py.strip piece = []) (Py.split_on 44 (py " , ")) ->
   snd (suggest_recipes (sk := example_sklearn) (pd := Pandas_stable)
          twin_corpus (py " , ") (py "Yes") 10) = Some (example_world twin_corpus) /\
   score (df (example_world twin_corpus)) = None) /\
  (~ Forall (fun piece => Py.strip piece = []) (Py.split_on 44 (py " , ")) ->
   snd (suggest_recipes (sk := example_sklearn) (pd := Pandas_stable)
          twin_corpus (py " , ") (py "Yes") 10)
   = Some (scored_world (entered (py " , ")) (example_world twin_corpus))) /\
  (forall user_ingredients w0 top_n is_veg max_ings',
     consistent w0 ->
     is_veg = false \/
     (exists row, In row (rows (df w0)) /\
                  Py.len_le (ingredients (recipe row)) max_ings' = true) ->
     exists results,
       smart_suggest (sk := example_sklearn) (pd := Pandas_stable)
         user_ingredients w0 top_n is_veg max_ings'
       = (Ok results, scored_world user_ingredients w0)).
Proof.
  apply (only_blank_input_is_rejected (sk := example_sklearn) (pd := Pandas_stable)
           twin_corpus (example_world twin_corpus) (py " , ") (py "Yes") 10).
  reflexivity.
Defined.

(** C9, as stated, fails: the frame that [load_data] returns has no score
    column, and after a call it has one. *)
Lemma smart_suggest_writes_the_frame :
  score (df (example_world twin_corpus)) = None /\
  score (df (snd (smart_suggest (sk := example_sklearn) (pd := Pandas_stable)
                    [py "milk"; py "flour"] (example_world twin_corpus) 5 false 10)))
  = Some [(816497 # 1000000)%Q; (816497 # 1000000)%Q] /\
  df (snd (smart_suggest (sk := example_sklearn) (pd := Pandas_stable)
             [py "milk"; py "flour"] (example_world twin_corpus) 5 false 10))
  <> df (example_world twin_corpus).
Proof.
  split; [reflexivity|]. split; [vm_compute; reflexivity|].
  intros H. apply (f_equal score) in H. vm_compute in H. discriminate.
Qed.

(* ================================================================== *)
(** ** More on the normalizer *)
(* ================================================================== *)

Module Shape.

Lemma spaced_no_double b p q : ~ spaced b (p ++ 32 :: 32 :: q).
Proof.
  revert b. induction p as [|c p IH]; intros b H; simpl in H.
  - change (Py.is_space 32) with true in H. cbv iota in H.
    destruct H as [_ [H _]]. discriminate.
  - destruct (Py.is_space c); [destruct H as [_ H]|]; exact (IH _ H).
Qed.

Lemma rstrip_last s p c : Py.rstrip s = p ++ [c] -> Py.is_space c = false.
Proof.
  revert p. induction s as [|a t IH]; intros p H; simpl in H.
  - destruct p; discriminate.
  - destruct (Py.rstrip t) as [|d t'] eqn:E.
    + destruct (Py.is_space a) eqn:Ea; [destruct p; discriminate|].
      destruct p as [|x [|y p]]; try discriminate. now injection H as <-.
    + destruct p as [|x p]; [discriminate|].
      injection H as _ H. exact (IH p H).
Qed.

Lemma lower_char_fixed c :
  Py.is_AZ c = false -> c <> 304 -> c <> 8490 -> Py.lower_char c = [c].
Proof.
  intros H1 H2 H3. unfold Py.lower_char. rewrite H1.
  apply N.eqb_neq in H2. apply N.eqb_neq in H3. now rewrite H2, H3.
Qed.

Lemma lower_char_idem c : Py.lower (Py.lower_char c) = Py.lower_char c.
Proof.
  destruct (Py.is_AZ c) eqn:E.
  - unfold Py.lower_char. rewrite E. cbn [Py.lower flat_map app].
    unfold Py.is_AZ in E. apply andb_true_iff in E. destruct E as [E1 E2].
    apply N.leb_le in E1. apply N.leb_le in E2.
    rewrite lower_char_fixed; [reflexivity | | lia | lia].
    unfold Py.is_AZ. apply andb_false_iff. right. apply N.leb_gt. lia.
  - destruct (N.eq_dec c 304) as [->|N1]; [reflexivity|].
    destruct (N.eq_dec c 8490) as [->|N2]; [reflexivity|].
    rewrite (lower_char_fixed c E N1 N2). cbn [Py.lower flat_map app].
    now rewrite (lower_char_fixed c E N1 N2).
Qed.

Lemma lower_app a b : Py.lower (a ++ b) = Py.lower a ++ Py.lower b.
Proof. apply flat_map_app. Qed.

Lemma lower_idem s : Py.lower (Py.lower s) = Py.lower s.
Proof.
  induction s as [|c s IH]; [reflexivity|].
  change (Py.lower (c :: s)) with (Py.lower_char c ++ Py.lower s).
  now rewrite lower_app, lower_char_idem, IH.
Qed.

(** White-space only: what is left when a text has no letter. *)
Lemma sub_space_runs_blank b s :
  Forall (fun c => Py.is_space c = true) s ->
  Forall (fun c => Py.is_space c = true) (Py.sub_space_runs b s).
Proof.
  intros H. revert b. induction H as [|c s Hc _ IH]; intros b; simpl; [constructor|].
  rewrite Hc. destruct b; [apply IH|]. constructor; [reflexivity | apply IH].
Qed.

Lemma lstrip_blank s : Forall (fun c => Py.is_space c = true) s -> Py.lstrip s = [].
Proof. induction 1 as [|c s Hc _ IH]; simpl; [reflexivity|]. now rewrite Hc. Qed.

Lemma clean_lower x : clean_ingredient (Py.lower x) = clean_ingredient x.
Proof. unfold clean_ingredient. cbv zeta. now rewrite lower_idem. Qed.

End Shape.

(** X1.  Whatever the input, the normalized string is made of letters a-z
    and spaces only, has no two spaces in a row, and neither starts nor ends
    with a space. *)
Theorem clean_ingredient_shape (x : str) :
  Forall (fun c => Py.is_az c = true \/ c = 32) (clean_ingredient x) /\
  (forall p q, clean_ingredient x <> p ++ 32 :: 32 :: q) /\
  (forall q, clean_ingredient x <> 32 :: q) /\
  (forall p, clean_ingredient x <> p ++ [32]).
Proof.
  split; [apply Normal.clean_plain|]. split; [|split].
  - intros p q E. pose proof (Normal.clean_spaced x) as H. rewrite E in H.
    exact (Shape.spaced_no_double _ _ _ H).
  - intros q E.
    assert (H : headed (clean_ingredient x))
      by apply Normal.rstrip_headed, Normal.lstrip_headed.
    rewrite E in H. discriminate.
  - intros p E. unfold clean_ingredient, Py.strip in E. cbv zeta in E.
    apply Shape.rstrip_last in E. discriminate.
Qed.

(** X2.  The normalizer does not see the case of a text: a text and its
    lower-case form normalize to the same string. *)
Theorem clean_ingredient_ignores_case (x : str) :
  clean_ingredient (Py.lower x) = clean_ingredient x.
Proof. apply Shape.clean_lower. Qed.

(** X3.  The normalized string is empty exactly when the lower-case form of
    the text has no letter a-z: digits, punctuation, white-space and letters
    of other alphabets leave nothing. *)
Theorem clean_ingredient_empty_iff (x : str) :
  clean_ingredient x = [] <-> Forall (fun c => Py.is_az c = false) (Py.lower x).
Proof.
  split.
  - intros E. apply Forall_forall. intros c Hc.
    destruct (Py.is_az c) eqn:Ec; [exfalso|reflexivity].
    apply in_split in Hc. destruct Hc as [p [q Hpq]].
    assert (Hin : Py.contains [c] (Py.lower x) = true).
    { apply Keyword.contains_split. now exists p, q. }
    apply (Keyword.contains_clean [c]) in Hin; [|now repeat constructor].
    rewrite Shape.clean_lower, E in Hin. discriminate.
  - intros H. unfold clean_ingredient, Py.strip. cbv zeta.
    rewrite Shape.lstrip_blank; [reflexivity|].
    apply Shape.sub_space_runs_blank.
    apply Forall_forall. intros c Hc. apply filter_In in Hc. destruct Hc as [Hc Hk].
    rewrite Forall_forall in H. unfold Py.keep_az_space in Hk.
    now rewrite (H c Hc) in Hk.
Qed.

(* ================================================================== *)
(** ** More on the vegetarian check *)
(* ================================================================== *)

Lemma is_veg_recipe_false_split (ings kws : list str) :
  is_veg_recipe ings kws = false <->
  exists ing word before_word after_word,
    In ing ings /\ In word kws /\ ing = before_word ++ word ++ after_word.
Proof.
  unfold is_veg_recipe. rewrite negb_false_iff, existsb_exists. split.
  - intros [ing [Hi He]]. apply existsb_exists in He. destruct He as [word [Hw Hc]].
    apply Keyword.contains_split in Hc. destruct Hc as [p [q E]].
    now exists ing, word, p, q.
  - intros [ing [word [p [q [Hi [Hw E]]]]]]. exists ing. split; [exact Hi|].
    apply existsb_exists. exists word. split; [exact Hw|].
    apply Keyword.contains_split. now exists p, q.
Qed.

(** X4.  A recipe fails the vegetarian check exactly when one of its
    ingredients holds one of the keywords somewhere inside it, whatever comes
    before and after the keyword: the check is on substrings, not on words. *)
Theorem is_veg_recipe_false_iff (ings kws : list str) :
  is_veg_recipe ings kws = false <->
  exists ing word before_word after_word,
    In ing ings /\ In word kws /\ ing = before_word ++ word ++ after_word.
Proof. apply is_veg_recipe_false_split. Qed.

(** X5.  The check can only turn against a recipe as ingredients or keywords
    are added: a recipe that passes it passes it with fewer ingredients and
    with fewer keywords, and a recipe made of two lists of ingredients passes
    exactly when both lists pass. *)
Theorem is_veg_recipe_monotone (ings ings' kws kws' : list str) :
  (incl ings' ings -> incl kws' kws ->
   is_veg_recipe ings kws = true -> is_veg_recipe ings' kws' = true) /\
  is_veg_recipe (ings ++ ings') kws
  = is_veg_recipe ings kws && is_veg_recipe ings' kws.
Proof.
  split.
  - intros Hi Hk H. destruct (is_veg_recipe ings' kws') eqn:E; [reflexivity|].
    apply is_veg_recipe_false_split in E.
    destruct E as [ing [word [p [q [Hin [Hw E]]]]]].
    assert (F : is_veg_recipe ings kws = false).
    { apply is_veg_recipe_false_split. exists ing, word, p, q. auto. }
    congruence.
  - unfold is_veg_recipe. now rewrite existsb_app, negb_orb.
Qed.

(* ================================================================== *)
(** ** Which recipes are returned, and how many *)
(* ================================================================== *)

Lemma filter_twice {A} (f g : A -> bool) (l : list A) :
  filter g (filter f l) = filter (fun x => f x && g x) l.
Proof.
  induction l as [|x l IH]; simpl; [reflexivity|].
  destruct (f x); simpl; [destruct (g x)|]; now rewrite IH.
Qed.

Lemma head_length_ok {A} (n : Z) (l : list A) :
  List.length (Py.head n l) = head_length n (List.length l).
Proof.
  unfold Py.head, head_length. destruct (0 <=? n)%Z; rewrite length_firstn; lia.
Qed.

Lemma head_length_mono (n : Z) (k k' : nat) :
  (k <= k')%nat -> (head_length n k <= head_length n k')%nat.
Proof. unfold head_length. destruct (0 <=? n)%Z; lia. Qed.

Lemma StronglySorted_cross {A} (R : A -> A -> Prop) (a b : list A) :
  StronglySorted R (a ++ b) -> forall x y, In x a -> In y b -> R x y.
Proof.
  induction a as [|c a IH]; simpl; intros H x y Hx Hy; [contradiction|].
  apply StronglySorted_inv in H. destruct H as [Hs Hall].
  destruct Hx as [<- | Hx].
  - rewrite Forall_forall in Hall. apply Hall, in_or_app. now right.
  - now apply (IH Hs).
Qed.

Lemma accepted_incl is_veg is_veg' max_ings max_ings' scored :
  (max_ings <= max_ings')%Z -> (is_veg' = true -> is_veg = true) ->
  incl (accepted is_veg max_ings scored) (accepted is_veg' max_ings' scored).
Proof.
  intros Hm Hv r Hr. unfold accepted in *. apply filter_In in Hr.
  destruct Hr as [Hr Hf]. apply filter_In. split; [exact Hr|].
  apply andb_true_iff in Hf. destruct Hf as [Hl Hg]. apply andb_true_iff. split.
  - unfold Py.len_le in *. apply Z.leb_le in Hl. apply Z.leb_le. lia.
  - destruct is_veg'; [|reflexivity]. now rewrite (Hv eq_refl) in Hg.
Qed.

Lemma accepted_length_mono is_veg is_veg' max_ings max_ings' scored :
  (max_ings <= max_ings')%Z -> (is_veg' = true -> is_veg = true) ->
  (List.length (accepted is_veg max_ings scored)
   <= List.length (accepted is_veg' max_ings' scored))%nat.
Proof.
  intros Hm Hv. unfold accepted. induction scored as [|r l IH]; simpl; [lia|].
  destruct (Py.len_le _ max_ings && _) eqn:E.
  - assert (Hin : In r (accepted is_veg' max_ings' (r :: l))).
    { apply (accepted_incl is_veg is_veg' max_ings max_ings' (r :: l) Hm Hv).
      unfold accepted. simpl. rewrite E. now left. }
    unfold accepted in Hin. apply filter_In in Hin. destruct Hin as [_ ->].
    simpl. lia.
  - destruct (Py.len_le _ max_ings' && _); simpl; lia.
Qed.

Lemma filter_apply_Some f l l' :
  filter_apply f l = Some l' ->
  l' = filter (fun r : Scored => f (ingredients (recipe (fst r)))) l.
Proof.
  unfold filter_apply. destruct l as [|x t]; [discriminate|].
  intros [= <-]. reflexivity.
Qed.

Section Selection.
Context {sk : Sklearn} {pd : Pandas}.

Lemma top_recipes_accepted scored top_n is_veg max_ings top :
  top_recipes scored top_n is_veg max_ings = Ok top ->
  top = Py.head top_n (sort_values_desc (accepted is_veg max_ings scored)).
Proof.
  unfold top_recipes. destruct is_veg.
  - destruct (filter_apply _ _) as [l|] eqn:E; [|discriminate].
    intros [= <-]. apply filter_apply_Some in E. subst l.
    unfold filter_max_ings, accepted. rewrite filter_twice. reflexivity.
  - intros [= <-]. unfold filter_max_ings, accepted. f_equal. f_equal.
    apply filter_ext. intros r. cbn [negb orb]. now rewrite andb_true_r.
Qed.

Lemma result_length q w top_n is_veg max_ings results w' :
  smart_suggest q w top_n is_veg max_ings = (Ok results, w') ->
  List.length results
  = head_length top_n
      (List.length (accepted is_veg max_ings (combine (rows (df w)) (rank q w)))).
Proof.
  intros H. apply smart_suggest_Ok in H. destruct H as [_ [top [Htop ->]]].
  apply top_recipes_accepted in Htop. subst top.
  now rewrite length_map, head_length_ok, <- (Permutation_length (sort_values_perm _)).
Qed.

(** X6.  The number of results depends on the filters and on [top_n] only:
    with [k] recipes passing the filters it is the smaller of [top_n] and
    [k], and [k + top_n] or nothing for a negative [top_n].  So there are
    never more than [top_n] results for a [top_n] that is not negative, and
    never more than there are recipes. *)
Theorem result_count
    (user_ingredients : list str) (w : World) (top_n : Z) (is_veg : bool)
    (max_ings : Z) (results : list Recommendation) (w' : World) :
  smart_suggest user_ingredients w top_n is_veg max_ings = (Ok results, w') ->
  List.length results
  = head_length top_n
      (List.length (accepted is_veg max_ings
                      (combine (rows (df w)) (rank user_ingredients w)))) /\
  ((0 <= top_n)%Z -> (Z.of_nat (List.length results) <= top_n)%Z) /\
  (List.length results <= List.length (rows (df w)))%nat.
Proof.
  intros H. rewrite (result_length _ _ _ _ _ _ _ H).
  set (k := List.length (accepted _ _ _)).
  assert (Hk : (k <= List.length (rows (df w)))%nat).
  { subst k. unfold accepted.
    etransitivity; [apply filter_length_le|].
    rewrite length_combine. lia. }
  split; [reflexivity|]. unfold head_length.
  destruct (Z.leb_spec 0 top_n); split; intros; lia.
Qed.

(** X7.  Every result is the explanation of a row of the frame, with its
    own similarity, whose recipe has at most [max_ings] ingredients and, with
    the vegetarian filter on, passes the vegetarian check. *)
Theorem results_pass_the_filters
    (user_ingredients : list str) (w : World) (top_n : Z) (is_veg : bool)
    (max_ings : Z) (results : list Recommendation) (w' : World) :
  smart_suggest user_ingredients w top_n is_veg max_ings = (Ok results, w') ->
  Forall (fun r =>
    exists row, In row (combine (rows (df w)) (rank user_ingredients w)) /\
      r = explain (map clean_ingredient user_ingredients) row /\
      (Z.of_nat (List.length (ingredients (recipe (fst row)))) <= max_ings)%Z /\
      (is_veg = true ->
       is_veg_recipe (ingredients (recipe (fst row))) non_veg_keywords = true))
    results.
Proof.
  intros H. apply smart_suggest_Ok in H. destruct H as [_ [top [Htop ->]]].
  apply top_recipes_accepted in Htop. subst top.
  apply Forall_forall. intros r Hr. apply in_map_iff in Hr.
  destruct Hr as [row [<- Hrow]]. apply head_incl in Hrow.
  apply (Permutation_in _ (Permutation_sym (sort_values_perm _))) in Hrow.
  unfold accepted in Hrow. apply filter_In in Hrow. destruct Hrow as [Hin Hf].
  apply andb_true_iff in Hf. destruct Hf as [Hl Hv].
  exists row. repeat split; [exact Hin | now apply Z.leb_le in Hl |].
  intros ->. exact Hv.
Qed.

(** X8.  The results are the best of the recipes that pass the filters: the
    rows behind the results, followed by some rest, are a rearrangement of
    the rows that pass, and no row of the rest has a higher similarity than
    a row behind a result.  With a [top_n] of at least the number of rows
    that pass, the rest is empty. *)
Theorem results_are_the_best
    (user_ingredients : list str) (w : World) (top_n : Z) (is_veg : bool)
    (max_ings : Z) (results : list Recommendation) (w' : World) :
  smart_suggest user_ingredients w top_n is_veg max_ings = (Ok results, w') ->
  exists top rest,
    results = map (explain (map clean_ingredient user_ingredients)) top /\
    Permutation (accepted is_veg max_ings
                   (combine (rows (df w)) (rank user_ingredients w)))
                (top ++ rest) /\
    (forall a b, In a top -> In b rest -> (snd b <= snd a)%Q) /\
    ((Z.of_nat (List.length (accepted is_veg max_ings
                  (combine (rows (df w)) (rank user_ingredients w)))) <= top_n)%Z ->
     rest = []).
Proof.
  intros H. apply smart_suggest_Ok in H. destruct H as [_ [top [Htop ->]]].
  apply top_recipes_accepted in Htop.
  set (acc := accepted _ _ _) in *.
  destruct (head_prefix top_n (sort_values_desc acc)) as [rest E].
  rewrite <- Htop in E. exists top, rest.
  split; [reflexivity|]. split; [|split].
  - rewrite <- E. apply sort_values_perm.
  - intros a b Ha Hb. pose proof (sort_values_sorted acc) as Hs.
    rewrite E in Hs. exact (StronglySorted_cross _ _ _ Hs a b Ha Hb).
  - intros Hn. apply (f_equal (@List.length _)) in E.
    rewrite length_app, Htop, head_length_ok in E.
    rewrite <- (Permutation_length (sort_values_perm acc)) in *.
    unfold head_length in E. destruct (Z.leb_spec 0 top_n); [|lia].
    destruct rest; [reflexivity|]. simpl in E. lia.
Qed.

(** X9.  Weaker filters never give fewer results: with the same query and
    [top_n], a call with a larger [max_ings], or with the vegetarian filter
    off where the other has it on, returns at least as many results. *)
Theorem weaker_filters_give_no_fewer_results
    (user_ingredients : list str) (w : World) (top_n : Z)
    (is_veg is_veg' : bool) (max_ings max_ings' : Z)
    (results results' : list Recommendation) (w1 w2 : World) :
  (max_ings <= max_ings')%Z ->
  (is_veg' = true -> is_veg = true) ->
  smart_suggest user_ingredients w top_n is_veg max_ings = (Ok results, w1) ->
  smart_suggest user_ingredients w top_n is_veg' max_ings' = (Ok results', w2) ->
  (List.length results <= List.length results')%nat.
Proof.
  intros Hm Hv H1 H2.
  apply result_length in H1. apply result_length in H2.
  rewrite H1, H2. apply head_length_mono. now apply accepted_length_mono.
Qed.

End Selection.

Lemma result_count_witness :
  List.length [twin_result 1]
  = head_length 1
      (List.length (accepted false 10
                      (combine (rows (df (example_world twin_corpus)))
                               (rank twin_query (example_world twin_corpus))))) /\
  ((0 <= 1)%Z -> (Z.of_nat (List.length [twin_result 1]) <= 1)%Z) /\
  (List.length [twin_result 1] <= List.length (rows (df (example_world twin_corpus))))%nat.
Proof.
  apply (result_count (sk := example_sklearn) (pd := Pandas_stable)
           twin_query (example_world twin_corpus) 1 false 10 [twin_result 1]
           (scored_world twin_query (example_world twin_corpus))).
  vm_compute. reflexivity.
Defined.

Lemma results_pass_the_filters_witness :
  Forall (fun r =>
    exists row, In row (combine (rows (df (example_world twin_corpus)))
                                (rank twin_query (example_world twin_corpus))) /\
      r = explain (map clean_ingredient twin_query) row /\
      (Z.of_nat (List.length (ingredients (recipe (fst row)))) <= 3)%Z /\
      (false = true ->
       is_veg_recipe (ingredients (recipe (fst row))) non_veg_keywords = true))
    [twin_result 1; twin_result 2].
Proof.
  apply (results_pass_the_filters (sk := example_sklearn) (pd := Pandas_stable)
           twin_query (example_world twin_corpus) 5 false 3 _
           (scored_world twin_query (example_world twin_corpus))).
  vm_compute. reflexivity.
Defined.

Lemma results_are_the_best_witness :
  exists top rest,
    [twin_result 1] = map (explain (map clean_ingredient twin_query)) top /\
    Permutation (accepted false 10
                   (combine (rows (df (example_world twin_corpus)))
                            (rank twin_query (example_world twin_corpus))))
                (top ++ rest) /\
    (forall a b, In a top -> In b rest -> (snd b <= snd a)%Q) /\
    ((Z.of_nat (List.length (accepted false 10
                  (combine (rows (df (example_world twin_corpus)))
                           (rank twin_query (example_world twin_corpus))))) <= 1)%Z ->
     rest = []).
Proof.
  apply (results_are_the_best (sk := example_sklearn) (pd := Pandas_stable)
           twin_query (example_world twin_corpus) 1 false 10 _
           (scored_world twin_query (example_world twin_corpus))).
  vm_compute. reflexivity.
Defined.

Lemma weaker_filters_give_no_fewer_results_witness :
  (List.length (@nil Recommendation) <= List.length [twin_result 1; twin_result 2])%nat.
Proof.
  apply (weaker_filters_give_no_fewer_results (sk := example_sklearn) (pd := Pandas_stable)
           twin_query (example_world twin_corpus) 5 true false 3 3 [] _
           (scored_world twin_query (example_world twin_corpus))
           (scored_world twin_query (example_world twin_corpus))).
  - lia.
  - reflexivity.
  - vm_compute. reflexivity.
  - vm_compute. reflexivity.
Defined.

(* ================================================================== *)
(** ** One call after another *)
(* ================================================================== *)

Section Calls.
Context {sk : Sklearn} {pd : Pandas}.

Lemma snd_smart_suggest q w top_n is_veg max_ings :
  snd (smart_suggest q w top_n is_veg max_ings) = w \/
  consistent w /\ snd (smart_suggest q w top_n is_veg max_ings) = scored_world q w.
Proof.
  unfold smart_suggest, set_score, consistent. rewrite rank_length.
  destruct (Nat.eqb_spec (n_rows (tfidf_matrix w)) (List.length (rows (df w))))
    as [E|E]; [|now left].
  right. split; [exact E|]. destruct (top_recipes _ _ _ _); reflexivity.
Qed.

(** X10.  A call does not depend on the calls before it: the score column
    that an earlier call left in the frame is overwritten, so a call made
    after any other call returns, and leaves behind, what it would have
    without that other call. *)
Theorem earlier_calls_do_not_matter
    (q q' : list str) (w : World) (top_n top_n' : Z) (is_veg is_veg' : bool)
    (max_ings max_ings' : Z) :
  smart_suggest q (snd (smart_suggest q' w top_n' is_veg' max_ings'))
                top_n is_veg max_ings
  = smart_suggest q w top_n is_veg max_ings.
Proof.
  destruct (snd_smart_suggest q' w top_n' is_veg' max_ings') as [-> | [Hc ->]];
    [reflexivity|].
  rewrite (smart_suggest_consistent q w _ _ _ Hc).
  rewrite (smart_suggest_consistent q (scored_world q' w) _ _ _ Hc).
  reflexivity.
Qed.

End Calls.

(* ================================================================== *)
(** ** The ingredients the handler passes on, and what it shows *)
(* ================================================================== *)

Module Pieces.

Lemma split_on_free d s : Forall (fun p => ~ In d p) (Py.split_on d s).
Proof.
  induction s as [|c s IH]; simpl.
  - constructor; [intros [] | constructor].
  - destruct (N.eqb_spec c d) as [->|N].
    + constructor; [intros [] | exact IH].
    + destruct (Py.split_on d s) as [|p ps].
      * constructor; [|constructor]. intros [H | []]. congruence.
      * inversion IH as [|? ? Hp Hps]; subst. constructor; [|exact Hps].
        intros [H | H]; [congruence | now apply Hp].
Qed.

Lemma lstrip_In c s : In c (Py.lstrip s) -> In c s.
Proof.
  induction s as [|a s IH]; simpl; [trivial|].
  destruct (Py.is_space a); [intros H; right; now apply IH | trivial].
Qed.

Lemma rstrip_In c s : In c (Py.rstrip s) -> In c s.
Proof.
  induction s as [|a s IH]; simpl; [trivial|].
  destruct (Py.rstrip s) as [|d t].
  - destruct (Py.is_space a); [intros [] | intros [H | []]; now left].
  - intros [H | H]; [now left | right; now apply IH].
Qed.

Lemma strip_In c s : In c (Py.strip s) -> In c s.
Proof. intros H. now apply lstrip_In, rstrip_In. Qed.

End Pieces.

(** X11.  Every ingredient that the handler passes to [smart_suggest] is a
    piece of the text between two commas, without the white-space around it:
    it is not empty, holds no comma, and neither starts nor ends with
    white-space. *)
Theorem entered_ingredients (user_input : str) :
  Forall (fun i => i <> [] /\ ~ In 44 i /\ Py.strip i = i /\
                   exists piece, In piece (Py.split_on 44 user_input) /\
                                 i = Py.strip piece)
         (entered user_input).
Proof.
  unfold entered. apply Forall_forall. intros i Hi.
  apply in_map_iff in Hi. destruct Hi as [piece [<- Hp]].
  apply filter_In in Hp. destruct Hp as [Hp Hne].
  split; [|split; [|split]].
  - intros E. rewrite E in Hne. discriminate.
  - intros H. apply Pieces.strip_In in H.
    pose proof (Pieces.split_on_free 44 user_input) as F.
    rewrite Forall_forall in F. exact (F piece Hp H).
  - apply Normal.strip_idem.
  - now exists piece.
Qed.

Section Page.
Context {sk : Sklearn} {pd : Pandas}.

(** X12.  What the handler shows once the data are loaded: cards only for a
    list of one to five results; the warning only when an ingredient was
    entered and no recipe passes the filters; the error only when no
    ingredient was entered. *)
Theorem shown_after_click
    (data : list Recipe) (w : World) (user_input is_veg_choice : str)
    (max_ings : Z) (shown : Shown) :
  load_data data = Ok w ->
  fst (suggest_recipes data user_input is_veg_choice max_ings) = Ok shown ->
  match shown with
  | Cards results =>
      (1 <= List.length results <= 5)%nat /\
      fst (smart_suggest (entered user_input) w 5
                         (Py.eqb is_veg_choice (py "Yes")) max_ings) = Ok results
  | Warning _ =>
      entered user_input <> [] /\
      accepted (Py.eqb is_veg_choice (py "Yes")) max_ings
               (combine (rows (df w)) (rank (entered user_input) w)) = []
  | Error _ => entered user_input = []
  end.
Proof.
  intros Hl. unfold suggest_recipes. rewrite Hl. cbv zeta.
  destruct (entered user_input) as [|i rest] eqn:E.
  { intros [= <-]. reflexivity. }
  destruct (smart_suggest (i :: rest) w 5 _ max_ings) as [[results|e] w'] eqn:S;
    [|discriminate].
  pose proof (result_length _ _ _ _ _ _ _ S) as Hn.
  unfold head_length in Hn. change (0 <=? 5)%Z with true in Hn. cbv iota in Hn.
  change (Z.to_nat 5) with 5%nat in Hn.
  destruct results as [|r results]; intros [= <-].
  - split; [discriminate|].
    destruct (accepted _ _ _); [reflexivity|]. cbn [List.length] in Hn. lia.
  - split; [|reflexivity]. cbn [List.length] in *. lia.
Qed.

(** X13.  The data that [load_data] returns: one row for every record, in
    the order of the records and with the record unchanged; the text of a
    row is made of letters a-z and spaces only; the frame has no score
    column yet; and the matrix has one row for every recipe. *)
Theorem loaded_data (data : list Recipe) (w : World) :
  load_data data = Ok w ->
  map recipe (rows (df w)) = data /\
  Forall (fun r => Forall (fun c => Py.is_az c = true \/ c = 32) (ingredient_text r))
         (rows (df w)) /\
  score (df w) = None /\
  n_rows (tfidf_matrix w) = List.length data.
Proof.
  intros H. pose proof (load_data_consistent _ _ H) as Hc.
  unfold load_data in H.
  destruct data as [|r0 data0] eqn:Ed; [discriminate|]. rewrite <- Ed in *. clear Ed.
  destruct (fit_transform _) as [[v m]|e]; [|discriminate]. injection H as <-.
  unfold consistent in Hc. cbn [df tfidf_matrix] in *. unfold frame in *.
  cbn [rows score] in *.
  split; [|split; [|split]].
  - rewrite map_map. cbn [recipe]. apply map_id.
  - apply Forall_forall. intros r Hr. apply in_map_iff in Hr.
    destruct Hr as [x [<- _]]. cbn [ingredient_text].
    induction (ingredients x) as [|i l IH]; [constructor|].
    cbn [map Py.join]. destruct (map clean_ingredient l) as [|j l'] eqn:E.
    + apply Normal.clean_plain.
    + apply Forall_app. split; [apply Normal.clean_plain|].
      constructor; [now right | exact IH].
  - reflexivity.
  - rewrite Hc. apply length_map.
Qed.

End Page.

Lemma shown_after_click_witness :
  (1 <= List.length [twin_result 1; twin_result 2] <= 5)%nat /\
  fst (smart_suggest (sk := example_sklearn) (pd := Pandas_stable)
         (entered (py "milk, flour")) (example_world twin_corpus) 5
         (Py.eqb (py "No") (py "Yes")) 10)
  = Ok [twin_result 1; twin_result 2].
Proof.
  apply (shown_after_click (sk := example_sklearn) (pd := Pandas_stable)
           twin_corpus (example_world twin_corpus) (py "milk, flour") (py "No") 10
           (Cards [twin_result 1; twin_result 2])).
  - reflexivity.
  - vm_compute. reflexivity.
Defined.

Lemma loaded_data_witness :
  map recipe (rows (df (example_world twin_corpus))) = twin_corpus /\
  Forall (fun r => Forall (fun c => Py.is_az c = true \/ c = 32) (ingredient_text r))
         (rows (df (example_world twin_corpus))) /\
  score (df (example_world twin_corpus)) = None /\
  n_rows (tfidf_matrix (example_world twin_corpus)) = List.length twin_corpus.
Proof.
  apply (loaded_data (sk := example_sklearn) twin_corpus (example_world twin_corpus)).
  reflexivity.
Defined.

(* ================================================================== *)
(** ** The score that is shown (line 84) *)
(* ================================================================== *)

Module Thousandths.
Local Open Scope Z_scope.

Lemma below_1001 (P : Z -> bool) :
  forallb P (map Z.of_nat (seq 0 1001)) = true ->
  forall m, 0 <= m <= 1000 -> P m = true.
Proof.
  intros H m Hm. rewrite forallb_forall in H. apply H.
  apply in_map_iff. exists (Z.to_nat m). split; [lia|].
  apply in_seq. lia.
Qed.

Lemma nearest_double_thousandth m :
  0 <= m <= 1000 ->
  (0 <= Py.nearest_double (m # 1000))%Q /\
  (Py.nearest_double (m # 1000) <= 1)%Q /\
  (Qabs (Py.nearest_double (m # 1000) - (m # 1000)) <= 1 # 18014398509481984)%Q.
Proof.
  intros Hm.
  pose proof (below_1001
    (fun m => Qle_bool 0 (Py.nearest_double (m # 1000))
              && Qle_bool (Py.nearest_double (m # 1000)) 1
              && Qle_bool (Qabs (Py.nearest_double (m # 1000) - (m # 1000)))
                          (1 # 18014398509481984))
    ltac:(vm_compute; reflexivity) m Hm) as H.
  cbv beta in H. rewrite !andb_true_iff, !Qle_bool_iff in H. tauto.
Qed.

Lemma nearest_double_thousandth_step m :
  0 <= m <= 1000 ->
  (Py.nearest_double (m # 1000) <= Py.nearest_double (m + 1 # 1000))%Q.
Proof.
  intros Hm.
  pose proof (below_1001
    (fun m => Qle_bool (Py.nearest_double (m # 1000)) (Py.nearest_double (m + 1 # 1000)))
    ltac:(vm_compute; reflexivity) m Hm) as H.
  cbv beta in H. now rewrite Qle_bool_iff in H.
Qed.

Lemma nearest_double_thousandth_mono m m' :
  0 <= m -> m <= m' -> m' <= 1000 ->
  (Py.nearest_double (m # 1000) <= Py.nearest_double (m' # 1000))%Q.
Proof.
  intros H0 Hle H1.
  replace m' with (m + Z.of_nat (Z.to_nat (m' - m))) in * by lia.
  induction (Z.to_nat (m' - m)) as [|k IH].
  - rewrite Z.add_0_r. apply Qle_refl.
  - eapply Qle_trans; [apply IH; lia|].
    replace (m + Z.of_nat (S k)) with (m + Z.of_nat k + 1) by lia.
    apply nearest_double_thousandth_step. lia.
Qed.

Lemma round_half_even_thousandths (x : Q) :
  (0 <= x)%Q -> (x <= 1)%Q ->
  let m := Py.round_half_even (Qnum x * 1000) (Zpos (Qden x)) in
  0 <= m <= 1000 /\
  (x - (1 # 2000) <= m # 1000)%Q /\ (m # 1000 <= x + (1 # 2000))%Q.
Proof.
  destruct x as [a d]. unfold Qle. cbn [Qnum Qden]. intros H0 H1. cbv zeta.
  pose proof (Rounding.round_half_even_spec (a * 1000) (Zpos d) ltac:(lia)) as [B _].
  pose proof (Rounding.round_half_even_mono 0 1 (a * 1000) (Zpos d)
                ltac:(lia) ltac:(lia) ltac:(lia)) as L0.
  pose proof (Rounding.round_half_even_mono (a * 1000) (Zpos d) 1000 1
                ltac:(lia) ltac:(lia) ltac:(lia)) as L1.
  change (Py.round_half_even 0 1) with 0 in L0.
  change (Py.round_half_even 1000 1) with 1000 in L1.
  set (n := Py.round_half_even (a * 1000) (Zpos d)) in *.
  split; [lia|].
  unfold Qminus, Qplus, Qopp. cbn [Qnum Qden].
  rewrite !Pos2Z.inj_mul. split; nia.
Qed.

End Thousandths.

(** X14.  The score shown with a result, for a similarity between 0 and 1:
    it is the double nearest to a multiple of 1/1000 that is at most 1/2000
    away from the similarity, so it is within 2^-54 of that multiple; it
    lies between 0 and 1; and it is not above the score shown for a row of
    higher similarity. *)
Theorem shown_score (user_cleaned : list str) (row : Scored) :
  (0 <= snd row)%Q -> (snd row <= 1)%Q ->
  (exists m : Z,
     (0 <= m <= 1000)%Z /\
     (snd row - (1 # 2000) <= m # 1000)%Q /\ (m # 1000 <= snd row + (1 # 2000))%Q /\
     Score (explain user_cleaned row) = Py.nearest_double (m # 1000) /\
     (Qabs (Score (explain user_cleaned row) - (m # 1000))
      <= 1 # 18014398509481984)%Q) /\
  (0 <= Score (explain user_cleaned row))%Q /\
  (Score (explain user_cleaned row) <= 1)%Q /\
  (forall row' : Scored,
     (snd row <= snd row')%Q -> (snd row' <= 1)%Q ->
     (Score (explain user_cleaned row) <= Score (explain user_cleaned row'))%Q).
Proof.
  intros H0 H1. unfold explain. cbn [Score]. unfold Py.round3.
  destruct (Thousandths.round_half_even_thousandths (snd row) H0 H1) as [Hm [Hlo Hhi]].
  set (m := Py.round_half_even (Qnum (snd row) * 1000) (Zpos (Qden (snd row)))) in *.
  destruct (Thousandths.nearest_double_thousandth m Hm) as [P0 [P1 Pc]].
  split; [|split; [exact P0 | split; [exact P1|]]].
  - exists m. repeat split; try assumption; lia.
  - intros row' Hle H1'.
    assert (H0' : (0 <= snd row')%Q) by exact (Qle_trans _ _ _ H0 Hle).
    destruct (Thousandths.round_half_even_thousandths (snd row') H0' H1') as [Hm' _].
    apply Thousandths.nearest_double_thousandth_mono; try lia.
    apply Rounding.round_half_even_mono; try lia.
    unfold Qle in Hle. lia.
Qed.

Lemma shown_score_witness :
  (exists m : Z,
     (0 <= m <= 1000)%Z /\
     (snd (twin_row 1) - (1 # 2000) <= m # 1000)%Q /\
     (m # 1000 <= snd (twin_row 1) + (1 # 2000))%Q /\
     Score (explain twin_query (twin_row 1)) = Py.nearest_double (m # 1000) /\
     (Qabs (Score (explain twin_query (twin_row 1)) - (m # 1000))
      <= 1 # 18014398509481984)%Q) /\
  (0 <= Score (explain twin_query (twin_row 1)))%Q /\
  (Score (explain twin_query (twin_row 1)) <= 1)%Q /\
  (forall row' : Scored,
     (snd (twin_row 1) <= snd row')%Q -> (snd row' <= 1)%Q ->
     (Score (explain twin_query (twin_row 1)) <= Score (explain twin_query row'))%Q).
Proof.
  apply (shown_score twin_query (twin_row 1)); vm_compute; discriminate.
Defined.

(* ================================================================== *)
(** ** The dashboard: the ten most common values of a column *)
(* ================================================================== *)

Module Counts.

Lemma count_pos v col : In v col -> (1 <= count v col)%nat.
Proof.
  induction col as [|x t IH]; simpl; [contradiction|].
  intros [-> | H].
  - assert (E : Py.eqb v v = true) by now apply eqb_eq. rewrite E. lia.
  - specialize (IH H). lia.
Qed.

Lemma count_app v a b : count v (a ++ b) = (count v a + count v b)%nat.
Proof. induction a as [|x a IH]; simpl; [reflexivity|]. rewrite IH. lia. Qed.

Lemma first_seen_In v seen col :
  In v (first_seen seen col) <-> In v col /\ ~ In v seen.
Proof.
  revert seen. induction col as [|x t IH]; intros seen; simpl; [tauto|].
  destruct (Py.mem x seen) eqn:E.
  - apply mem_In in E. rewrite IH. split.
    + intros [H1 H2]. auto.
    + intros [[-> | H1] H2]; [contradiction | auto].
  - assert (Hx : ~ In x seen).
    { intros H. apply mem_In in H. congruence. }
    simpl. rewrite IH. simpl. split.
    + intros [<- | [H1 H2]]; [auto | split; [auto | tauto]].
    + intros [[<- | H1] H2]; [now left|].
      destruct (list_eq_dec N.eq_dec x v) as [->|N]; [now left | right].
      split; [exact H1 | intros [H | H]; [auto | auto]].
Qed.

Lemma first_seen_NoDup seen col : NoDup (first_seen seen col).
Proof.
  revert seen. induction col as [|x t IH]; intros seen; simpl; [constructor|].
  destruct (Py.mem x seen); [apply IH|].
  constructor; [|apply IH].
  intros H. apply first_seen_In in H. destruct H as [_ H]. apply H. now left.
Qed.

Lemma tally_values col : map fst (tally col) = first_seen [] col.
Proof. unfold tally. rewrite map_map. cbn [fst]. apply map_id. Qed.

Lemma tally_In v c col : In (v, c) (tally col) <-> In v col /\ c = count v col.
Proof.
  unfold tally. rewrite in_map_iff. split.
  - intros [x [[= -> <-] H]]. apply first_seen_In in H. tauto.
  - intros [H ->]. exists v. split; [reflexivity|].
    apply first_seen_In. split; [exact H | intros []].
Qed.

Lemma insert_count_perm x l : Permutation (x :: l) (insert_count x l).
Proof.
  induction l as [|y t IH]; simpl; [reflexivity|].
  destruct (snd y <? snd x)%nat; [reflexivity|].
  rewrite perm_swap. now constructor.
Qed.

Lemma isort_counts_perm l : Permutation l (isort_counts l).
Proof.
  induction l as [|x t IH]; simpl; [constructor|].
  rewrite <- insert_count_perm. now constructor.
Qed.

Lemma insert_count_sorted x l :
  StronglySorted by_count_desc l -> StronglySorted by_count_desc (insert_count x l).
Proof.
  induction 1 as [|y t Hs IH Hall]; simpl; [repeat constructor|].
  destruct (Nat.ltb_spec (snd y) (snd x)).
  - constructor; [now constructor|]. constructor; [unfold by_count_desc; lia|].
    eapply Forall_impl; [|exact Hall]. unfold by_count_desc. intros; lia.
  - constructor; [exact IH|].
    eapply Permutation_Forall; [apply insert_count_perm|].
    constructor; [exact H | exact Hall].
Qed.

Lemma isort_counts_sorted l : StronglySorted by_count_desc (isort_counts l).
Proof.
  induction l as [|x t IH]; simpl; [constructor | now apply insert_count_sorted].
Qed.

End Counts.

#[local] Instance PandasCounts_insertion : PandasCounts :=
  {| sort_counts_desc := isort_counts;
     sort_counts_perm := Counts.isort_counts_perm;
     sort_counts_sorted := Counts.isort_counts_sorted |}.

Example common_ings_twins :
  common_ings (df (example_world (capital_egg_recipe :: twin_corpus)))
  = [(py "flour", 3%nat); (py "egg", 3%nat); (py "milk", 2%nat)].
Proof. vm_compute. reflexivity. Qed.

Example top_cuisines_twins :
  top_cuisines (df (example_world (capital_egg_recipe :: twin_corpus)))
  = [(py "italian", 2%nat); (py "french", 1%nat)].
Proof. vm_compute. reflexivity. Qed.

Section Dashboard.
Context {pc : PandasCounts}.

(** The ten values shown for a column [col]. *)
Lemma top_ten (col : list str) :
  let shown := Py.head 10 (value_counts col) in
  (List.length shown <= 10)%nat /\
  NoDup (map fst shown) /\
  Forall (fun e => In (fst e) col /\ snd e = count (fst e) col) shown /\
  StronglySorted by_count_desc shown /\
  (forall v, In v col -> ~ In v (map fst shown) ->
     List.length shown = 10%nat /\
     Forall (fun e => (count v col <= snd e)%nat) shown).
Proof.
  cbv zeta. unfold value_counts.
  pose proof (sort_counts_perm (tally col)) as P.
  pose proof (sort_counts_sorted (tally col)) as S.
  set (sorted := sort_counts_desc (tally col)) in *.
  destruct (head_prefix 10 sorted) as [rest E].
  pose proof (head_length_ok 10 sorted) as L.
  unfold head_length in L. change (0 <=? 10)%Z with true in L. cbv iota in L.
  change (Z.to_nat 10) with 10%nat in L.
  set (shown := Py.head 10 sorted) in *.
  split; [lia|]. split; [|split; [|split]].
  - assert (N : NoDup (map fst sorted)).
    { eapply Permutation_NoDup; [apply Permutation_map, P|].
      rewrite Counts.tally_values. apply Counts.first_seen_NoDup. }
    rewrite E, map_app in N. now apply NoDup_app_remove_r in N.
  - apply Forall_forall. intros [v c] H.
    assert (Hin : In (v, c) (tally col)).
    { apply (Permutation_in _ (Permutation_sym P)). rewrite E.
      apply in_or_app. now left. }
    apply Counts.tally_In in Hin. exact Hin.
  - rewrite E in S. now apply StronglySorted_prefix in S.
  - intros v Hv Hn.
    assert (Hin : In (v, count v col) sorted).
    { apply (Permutation_in _ P). now apply Counts.tally_In. }
    rewrite E in Hin. apply in_app_or in Hin. destruct Hin as [Hin | Hin].
    { exfalso. apply Hn. apply in_map_iff. now exists (v, count v col). }
    split.
    + apply (f_equal (@List.length _)) in E. rewrite length_app in E.
      destruct rest; [destruct Hin|]. cbn [List.length] in E. lia.
    + apply Forall_forall. intros e He. rewrite E in S.
      exact (StronglySorted_cross _ _ _ S e _ He Hin).
Qed.

(** X15.  The chart of the most common ingredients shows at most ten
    normalized ingredients, each once and with the number of times it occurs
    over the ingredient lists of all recipes, by descending number; a
    normalized ingredient that is left out occurs at most as often as each
    one shown, and is left out only when ten are shown. *)
Theorem common_ings_are_the_most_common (d : DataFrame) :
  (List.length (common_ings d) <= 10)%nat /\
  NoDup (map fst (common_ings d)) /\
  Forall (fun e => In (fst e) (all_ings d) /\ snd e = count (fst e) (all_ings d))
         (common_ings d) /\
  StronglySorted by_count_desc (common_ings d) /\
  (forall r i, In r (rows d) -> In i (ingredients (recipe r)) ->
     ~ In (clean_ingredient i) (map fst (common_ings d)) ->
     List.length (common_ings d) = 10%nat /\
     Forall (fun e => (count (clean_ingredient i) (all_ings d) <= snd e)%nat)
            (common_ings d)).
Proof.
  destruct (top_ten (all_ings d)) as [H1 [H2 [H3 [H4 H5]]]].
  split; [exact H1|]. split; [exact H2|]. split; [exact H3|]. split; [exact H4|].
  intros r i Hr Hi Hn. apply H5; [|exact Hn].
  unfold all_ings. apply in_flat_map. exists r. split; [exact Hr | now apply in_map].
Qed.

(** X16.  The chart of the cuisines shows at most ten cuisines, each once
    and with its number of recipes, by descending number; a cuisine that is
    left out has at most as many recipes as each one shown, and is left out
    only when ten are shown. *)
Theorem top_cuisines_are_the_most_common (d : DataFrame) :
  (List.length (top_cuisines d) <= 10)%nat /\
  NoDup (map fst (top_cuisines d)) /\
  Forall (fun e =>
            (exists r, In r (rows d) /\ cuisine (recipe r) = fst e) /\
            snd e = List.length
                      (filter (fun r => Py.eqb (fst e) (cuisine (recipe r))) (rows d)))
         (top_cuisines d) /\
  StronglySorted by_count_desc (top_cuisines d) /\
  (forall r, In r (rows d) ->
     ~ In (cuisine (recipe r)) (map fst (top_cuisines d)) ->
     List.length (top_cuisines d) = 10%nat /\
     Forall (fun e =>
               (List.length (filter (fun r' => Py.eqb (cuisine (recipe r))
                                                      (cuisine (recipe r'))) (rows d))
                <= snd e)%nat)
            (top_cuisines d)).
Proof.
  assert (C : forall v, count v (map (fun r => cuisine (recipe r)) (rows d))
                        = List.length (filter (fun r => Py.eqb v (cuisine (recipe r)))
                                              (rows d))).
  { intros v. induction (rows d) as [|x l IH]; simpl; [reflexivity|].
    rewrite IH. destruct (Py.eqb v (cuisine (recipe x))); reflexivity. }
  destruct (top_ten (map (fun r => cuisine (recipe r)) (rows d)))
    as [H1 [H2 [H3 [H4 H5]]]].
  split; [exact H1|]. split; [exact H2|]. split; [|split; [exact H4|]].
  - eapply Forall_impl; [|exact H3]. intros e [Hin Hc]. split.
    + apply in_map_iff in Hin. destruct Hin as [r [Hr Hin]]. now exists r.
    + now rewrite <- C.
  - intros r Hr Hn.
    destruct (H5 (cuisine (recipe r))) as [L F];
      [exact (in_map (fun r' => cuisine (recipe r')) _ _ Hr) | exact Hn |].
    split; [exact L|]. eapply Forall_impl; [|exact F].
    intros e He. now rewrite <- C.
Qed.

End Dashboard.

(* ================================================================== *)
(** ** Queries that normalize alike *)
(* ================================================================== *)

Section Queries.
Context {sk : Sklearn} {pd : Pandas}.

(** X17.  A call sees its query through the normalizer only: two ingredient
    lists with the same normalized ingredients get the same results and
    leave the same frame; so a query gives what its lower-case form gives. *)
Theorem same_normalized_query_same_results
    (q : list str) (w : World) (top_n : Z) (is_veg : bool) (max_ings : Z) :
  (forall q', map clean_ingredient q = map clean_ingredient q' ->
     smart_suggest q w top_n is_veg max_ings
     = smart_suggest q' w top_n is_veg max_ings) /\
  smart_suggest (map Py.lower q) w top_n is_veg max_ings
  = smart_suggest q w top_n is_veg max_ings.
Proof.
  assert (G : forall a b, map clean_ingredient a = map clean_ingredient b ->
                smart_suggest a w top_n is_veg max_ings
                = smart_suggest b w top_n is_veg max_ings).
  { intros a b E. unfold smart_suggest, rank. now rewrite E. }
  split; [exact (G q)|]. apply G. rewrite map_map.
  apply map_ext. intros x. apply Shape.clean_lower.
Qed.

End Queries.

Example capitals_in_the_query :
  smart_suggest (sk := example_sklearn) (pd := Pandas_stable)
    [py " Milk"; py "FLOUR!"] (example_world twin_corpus) 5 false 10
  = smart_suggest (sk := example_sklearn) (pd := Pandas_stable)
      twin_query (example_world twin_corpus) 5 false 10.
Proof. vm_compute. reflexivity. Qed.

(* ================================================================== *)
(** ** The scores of the ranker *)
(* ================================================================== *)

Module TfidfFacts.
Import Tfidf.
Local Open Scope R_scope.




Lemma dot_self_nonneg v : 0 <= dot v v.
Proof. induction v as [|x v IH]; cbn [dot]; [lra | nra]. Qed.

Lemma dot_self_zero v : dot v v = 0 <-> all_zero v.
Proof.
  unfold all_zero. induction v as [|x v IH]; cbn [dot].
  - split; [constructor | reflexivity].
  - pose proof (dot_self_nonneg v) as Hv. split.
    + intros H. constructor; [nra | apply IH; nra].
    + intros H. inversion H as [|? ? Hx Hrest]; subst.
      apply IH in Hrest. rewrite Hrest. lra.
Qed.


Lemma norm_nonneg v : 0 <= norm v.
Proof. apply sqrt_pos. Qed.

Lemma norm_pos v : ~ all_zero v -> 0 < norm v.
Proof.
  intros H. apply sqrt_lt_R0. pose proof (dot_self_nonneg v) as Hv.
  destruct (Req_dec (dot v v) 0) as [E|E]; [|lra].
  apply dot_self_zero in E. contradiction.
Qed.



Lemma cosine_zero u v : all_zero u \/ all_zero v -> cosine u v = 0.
Proof.
  unfold cosine. intros [H|H].
  - destruct (all_zero_dec u); [reflexivity | contradiction].
  - destruct (all_zero_dec u); [reflexivity|].
    destruct (all_zero_dec v); [reflexivity | contradiction].
Qed.









(** The weighting decreases with the number of documents containing the
    token, and a document that is not all-zero gets unit Euclidean norm. *)
Lemma idf_decreasing n k k' : (k <= k')%nat -> idf n k' <= idf n k.
Proof.
  intros H. unfold idf. apply le_INR in H.
  pose proof (pos_INR k) as Hk. pose proof (pos_INR n) as Hn.
  assert (H1 : (1 + INR n) / (1 + INR k') <= (1 + INR n) / (1 + INR k)).
  { unfold Rdiv. apply Rmult_le_compat_l; [lra|].
    apply Rinv_le_contravar; lra. }
  assert (H0 : 0 < (1 + INR n) / (1 + INR k')).
  { unfold Rdiv. apply Rmult_lt_0_compat; [lra|]. apply Rinv_0_lt_compat. lra. }
  destruct H1 as [H1 | ->]; [|lra].
  pose proof (ln_increasing _ _ H0 H1). lra.
Qed.

Lemma dot_scaled c u v :
  c <> 0 ->
  dot (map (fun x => x / c) u) (map (fun x => x / c) v) = dot u v / (c * c).
Proof.
  intros Hc. revert v. induction u as [|x u IH]; intros [|y v]; cbn [map dot];
    try (unfold Rdiv; now rewrite Rmult_0_l).
  rewrite IH. field. exact Hc.
Qed.

Lemma normalize_unit v : ~ all_zero v -> norm (normalize v) = 1.
Proof.
  intros Hv. unfold normalize. destruct (all_zero_dec v); [contradiction|].
  pose proof (norm_pos v Hv) as Hn. unfold norm at 1.
  rewrite dot_scaled by lra. unfold norm.
  rewrite sqrt_sqrt by apply dot_self_nonneg.
  rewrite Rdiv_diag; [apply sqrt_1|].
  intros E. apply dot_self_zero in E. contradiction.
Qed.


Lemma idf_all n : idf n n = 1.
Proof.
  unfold idf. rewrite Rdiv_diag, ln_1; [lra|].
  pose proof (pos_INR n). lra.
Qed.

Lemma dot_scaled_by a b u v :
  a <> 0 -> b <> 0 ->
  dot (map (fun x => x / a) u) (map (fun x => x / b) v) = dot u v / (a * b).
Proof.
  intros Ha Hb. revert v. induction u as [|x u IH]; intros [|y v]; cbn [map dot];
    try (unfold Rdiv; now rewrite Rmult_0_l).
  rewrite IH. now field.
Qed.

Lemma norm_all_zero v : all_zero v -> norm v = 0.
Proof. intros H. apply dot_self_zero in H. unfold norm. rewrite H. apply sqrt_0. Qed.

Lemma normalize_all_zero v : all_zero (normalize v) <-> all_zero v.
Proof.
  split; intros H.
  - destruct (all_zero_dec v) as [Hz|Hz]; [exact Hz|].
    apply norm_all_zero in H. rewrite (normalize_unit v Hz) in H. lra.
  - unfold normalize. now destruct (all_zero_dec v).
Qed.

(** The similarity does not see the normalization of the two vectors. *)
Lemma cosine_normalize u v : cosine (normalize u) (normalize v) = cosine u v.
Proof.
  destruct (all_zero_dec u) as [Hu|Hu].
  { rewrite !cosine_zero; [reflexivity | now left |].
    left. now apply normalize_all_zero. }
  destruct (all_zero_dec v) as [Hv|Hv].
  { rewrite !cosine_zero; [reflexivity | now right |].
    right. now apply normalize_all_zero. }
  unfold cosine.
  destruct (all_zero_dec (normalize u)) as [H|_];
    [apply (proj1 (normalize_all_zero u)) in H; contradiction|].
  destruct (all_zero_dec (normalize v)) as [H|_];
    [apply (proj1 (normalize_all_zero v)) in H; contradiction|].
  destruct (all_zero_dec u) as [H|_]; [contradiction|].
  destruct (all_zero_dec v) as [H|_]; [contradiction|].
  rewrite !normalize_unit by assumption.
  unfold normalize.
  destruct (all_zero_dec u); [contradiction|].
  destruct (all_zero_dec v); [contradiction|].
  pose proof (norm_pos u Hu). pose proof (norm_pos v Hv).
  rewrite dot_scaled_by by lra. unfold Rdiv. now rewrite Rmult_1_r, Rinv_1, Rmult_1_r.
Qed.

Lemma not_all_zero v (x : R) : In x v -> x <> 0 -> ~ all_zero v.
Proof.
  intros Hin Hx Hz. unfold all_zero in Hz. rewrite Forall_forall in Hz.
  apply Hx, Hz, Hin.
Qed.

End TfidfFacts.

Example tokens_of_a_document :
  Tfidf.tokens (py "milk egg  flour ") = [py "milk"; py "egg"; py "flour"].
Proof. vm_compute. reflexivity. Qed.

Module TfidfExamples.
Import Tfidf TfidfFacts.
Local Open Scope R_scope.

(** Scenario 1 on the vectorizer of the specification: the query "milk,
    flour" is at 2 / sqrt 6 from the recipe milk, egg, flour, which is the
    0.816497 of the example ranker to six places. *)
Example scenario_score :
  rank (py "milk flour") (fst (build [scenario_recipe 1])) (snd (build [scenario_recipe 1]))
  = [2 / (sqrt 2 * sqrt 3)].
Proof.
  unfold build, rank. cbn [fst snd map].
  replace (map ingredient_text (rows (frame [scenario_recipe 1])))
    with [py "milk egg flour"] by (vm_compute; reflexivity).
  unfold fit.
  replace (vocabulary [py "milk egg flour"]) with [py "milk"; py "egg"; py "flour"]
    by (vm_compute; reflexivity).
  cbn [map List.length].
  replace (document_frequency (py "milk") [py "milk egg flour"]) with 1%nat by (vm_compute; reflexivity).
  replace (document_frequency (py "egg") [py "milk egg flour"]) with 1%nat by (vm_compute; reflexivity).
  replace (document_frequency (py "flour") [py "milk egg flour"]) with 1%nat by (vm_compute; reflexivity).
  rewrite idf_all.
  unfold transform, weights. cbn [map fst snd].
  rewrite cosine_normalize.
  replace (term_frequency (py "milk") (py "milk flour")) with 1%nat by (vm_compute; reflexivity).
  replace (term_frequency (py "egg") (py "milk flour")) with 0%nat by (vm_compute; reflexivity).
  replace (term_frequency (py "flour") (py "milk flour")) with 1%nat by (vm_compute; reflexivity).
  replace (term_frequency (py "milk") (py "milk egg flour")) with 1%nat by (vm_compute; reflexivity).
  replace (term_frequency (py "egg") (py "milk egg flour")) with 1%nat by (vm_compute; reflexivity).
  replace (term_frequency (py "flour") (py "milk egg flour")) with 1%nat by (vm_compute; reflexivity).
  cbn [INR]. rewrite !Rmult_1_r.
  unfold cosine.
  destruct (all_zero_dec [1; 0; 1]) as [H|_];
    [exfalso; revert H; apply (not_all_zero _ 1); [now left | lra]|].
  destruct (all_zero_dec [1; 1; 1]) as [H|_];
    [exfalso; revert H; apply (not_all_zero _ 1); [now left | lra]|].
  unfold norm. cbn [dot].
  replace (1 * 1 + (0 * 1 + (1 * 1 + 0))) with 2 by lra.
  replace (1 * 1 + (0 * 0 + (1 * 1 + 0))) with 2 by lra.
  replace (1 * 1 + (1 * 1 + (1 * 1 + 0))) with 3 by lra.
  reflexivity.
Qed.

Example scenario_score_to_six_places :
  Rabs (2 / (sqrt 2 * sqrt 3) - 816497 / 1000000) < 1 / 1000000.
Proof.
  pose proof (sqrt_lt_R0 2 ltac:(lra)) as H2.
  pose proof (sqrt_lt_R0 3 ltac:(lra)) as H3.
  pose proof (sqrt_sqrt 2 ltac:(lra)) as E2.
  pose proof (sqrt_sqrt 3 ltac:(lra)) as E3.
  set (d := sqrt 2 * sqrt 3) in *.
  assert (Hd : 0 < d) by (apply Rmult_lt_0_compat; assumption).
  assert (Ed : d * d = 6) by (unfold d; nra).
  assert (Hlo : 816496 / 1000000 < 2 / d).
  { apply Rmult_lt_reg_r with d; [exact Hd|].
    unfold Rdiv at 2. rewrite Rmult_assoc, Rinv_l by lra. nra. }
  assert (Hhi : 2 / d < 816498 / 1000000).
  { apply Rmult_lt_reg_r with d; [exact Hd|].
    unfold Rdiv at 1. rewrite Rmult_assoc, Rinv_l by lra. nra. }
  apply Rabs_def1; lra.
Qed.

End TfidfExamples.

Section Ranker.
Context {sk : Sklearn}.
Local Open Scope R_scope.



End Ranker.

